(** * SIR page scripts: results page, documents page, index page

    A shallow embedding of the three browser scripts of the repository and
    of the fragment of JavaScript they rely on:

    - [ResultsPage]   the script of the results page
                      ([renderResults] and the [DOMContentLoaded] listener);
    - [DocumentsPage] templates/documents/script.js
                      ([renderResults], the [submit] listener, night theme);
    - [IndexPage]     the script of the index page
                      (the [keyup] and [change] listeners, [window.onload]).

    The scripts are classic (non-module, non-strict) scripts: inside a plain
    call [renderResults(x)] the receiver [this] is the global object, and a
    top-level [let] declares a script-scoped variable that is NOT a property
    of the global object. *)

From Stdlib Require Import ZArith String List Lia.
From Stdlib Require Import DecimalString DecimalNat DecimalFacts.
From stdpp Require Import base option list strings gmap.

Local Open Scope string_scope.
Local Open Scope list_scope.
Local Set Warnings "-register-all".

(* ===================================================================== *)
(** ** JavaScript values, as [response.json()] delivers them *)
(* ===================================================================== *)

Module JS.

(** A parsed JSON document, plus [undefined], which the scripts produce
    themselves (a missing property, the assignment [data.results =
    undefined]).  Objects are finite maps from property names to values.
    A number is given by its rendering, the string that [String(x)]
    yields for it ("0", "-5", "1.5", "1e+21", "NaN"): the scripts never
    compute with a number, they test it for truthiness, compare a length
    with [0], or splice it into a text, and two numbers with the same
    rendering are the same number but for [+0] and [-0], which none of
    these operations tells apart.  Strings are sequences of characters
    (well-formed text). *)
Inductive value : Type :=
| Undefined
| Null
| Bool (b : bool)
| Num (rendering : string)
| Str (s : string)
| Arr (elems : list value)
| Obj (props : gmap string value).

(** The exceptions the scripts can meet. *)
Inductive exn : Type :=
| Error (message : string)      (* [new Error(message)] *)
| TypeError                     (* property of null/undefined, not iterable, ... *)
| SyntaxError                   (* [response.json()] on a malformed body *)
| DOMException (name : string). (* e.g. an aborted [fetch] *)

(** The outcome of evaluating a piece of code: a value or a thrown
    exception. *)
Inductive completion (A : Type) : Type :=
| Normal (a : A)
| Throw (e : exn).
Arguments Normal {A} a.
Arguments Throw {A} e.

(** ToBoolean. *)
Definition truthy (v : value) : bool :=
  match v with
  | Undefined | Null => false
  | Bool b => b
  | Num r => negb (String.eqb r "0" || String.eqb r "NaN")
  | Str s => negb (String.eqb s "")
  | Arr _ | Obj _ => true
  end.

(** The number of elements of an array or of characters of a string, as a
    number: a natural number below 2^32, rendered in decimal. *)
Definition number_of_nat (n : nat) : value :=
  Num (NilZero.string_of_uint (Nat.to_uint n)).

(** [v.k] for the property names the scripts read ([error_message],
    [results], [url], [title], [snippet], [length]).  Reading a property of
    [null] or [undefined] throws; a primitive or an array has none of the
    named data properties; [length] is the only inherited or built-in
    property among them. *)
Definition get (v : value) (k : string) : completion value :=
  match v with
  | Undefined | Null => Throw TypeError
  | Obj props => Normal (default Undefined (props !! k))
  | Arr elems =>
      Normal (if String.eqb k "length" then number_of_nat (length elems)
              else Undefined)
  | Str s =>
      Normal (if String.eqb k "length" then number_of_nat (String.length s)
              else Undefined)
  | Bool _ | Num _ => Normal Undefined
  end.

(** [v.k = x] in non-strict code, returning the object as it is
    afterwards.  On [null] and [undefined] it throws; on a primitive the
    write is dropped silently; on an array it would add a named property,
    which no later read of the scripts can tell from a missing one when
    [x] is [undefined] (the only value the scripts ever store). *)
Definition set (v : value) (k : string) (x : value) : completion value :=
  match v with
  | Undefined | Null => Throw TypeError
  | Obj props => Normal (Obj (<[k := x]> props))
  | Arr _ | Str _ | Bool _ | Num _ => Normal v
  end.

(** [v === n] against a number literal given by its rendering, the only
    strict comparison with a value that the scripts make
    ([searchResults.length === 0]). *)
Definition strict_eq_num (v : value) (n : string) : bool :=
  match v with
  | Num r => String.eqb r n
  | _ => false
  end.

(** ToString, as string concatenation [prefix + v] and the DOM apply it.  A
    number gives its rendering.  An array is joined with commas, [null]
    and [undefined] elements giving the empty string.  An object is
    converted by the inherited [toString] unless it
    has a property of that name of its own, which in parsed JSON is never
    callable: the conversion then throws a TypeError ([None]). *)
Fixpoint to_string (v : value) : option string :=
  match v with
  | Undefined => Some "undefined"
  | Null => Some "null"
  | Bool true => Some "true"
  | Bool false => Some "false"
  | Num r => Some r
  | Str s => Some s
  | Arr elems =>
      (fix join (l : list value) : option string :=
         match l with
         | [] => Some ""
         | x :: rest =>
             let sx := match x with
                       | Undefined | Null => Some ""
                       | _ => to_string x
                       end in
             match sx, rest with
             | None, _ => None
             | Some s, [] => Some s
             | Some s, _ :: _ =>
                 match join rest with
                 | Some t => Some (s +:+ "," +:+ t)
                 | None => None
                 end
             end
         end) elems
  | Obj props =>
      match props !! "toString" with
      | Some _ => None
      | None => Some "[object Object]"
      end
  end.

(** The conversion of an argument or of an assigned value to a DOM string:
    ToString, throwing where it throws. *)
Definition DOMString (v : value) : completion string :=
  match to_string v with
  | Some s => Normal s
  | None => Throw TypeError
  end.

(** The same for a nullable DOM string, where [null] and [undefined] stand
    for no string; [textContent] treats that as the empty string. *)
Definition nullable_DOMString (v : value) : completion string :=
  match v with
  | Undefined | Null => Normal ""
  | _ => DOMString v
  end.

(** [prefix + v] where [prefix] is a string literal. *)
Definition concat (prefix : string) (v : value) : completion string :=
  match to_string v with
  | Some s => Normal (prefix +:+ s)
  | None => Throw TypeError
  end.

(** The elements [for (const x of v)] visits.  Arrays and strings are
    iterable (a string yields its characters); anything else a JSON
    document can hold, and [undefined], is not. *)
Definition iterate (v : value) : completion (list value) :=
  match v with
  | Arr elems => Normal elems
  | Str s => Normal (map (fun c => Str (String c EmptyString)) (list_ascii_of_string s))
  | Undefined | Null | Bool _ | Num _ | Obj _ => Throw TypeError
  end.

End JS.

(* ===================================================================== *)
(** ** The browser: DOM, dialogs, console, storage, network *)
(* ===================================================================== *)

Module Browser.
Import JS.

(** A DOM node as the scripts build it: an element with its classes, its
    attributes in the order they were set, and its children; or a text
    node. *)
Inductive node : Type :=
| Element (tag : string) (classes : list string)
          (attributes : list (string * string)) (children : list node)
| Text (data : string).

(** [document.createElement(tag)] *)
Definition createElement (tag : string) : node := Element tag [] [] [].

(** [classList.add(c)] on a list of class names: a set insertion. *)
Definition classList_add (c : string) (classes : list string) : list string :=
  if bool_decide (c ∈ classes) then classes else classes ++ [c].

Definition add_class (c : string) (n : node) : node :=
  match n with
  | Element tag classes attributes children =>
      Element tag (classList_add c classes) attributes children
  | Text _ => n
  end.

(** [n.k = s] for a property that reflects the attribute [k] ([href]), on
    an element that has no such attribute yet. *)
Definition set_attribute (k : string) (s : string) (n : node) : node :=
  match n with
  | Element tag classes attributes children =>
      Element tag classes (attributes ++ [(k, s)]) children
  | Text _ => n
  end.

(** [n.textContent = s]: the children are replaced by one text node, or by
    nothing when [s] is empty. *)
Definition set_textContent (s : string) (n : node) : node :=
  match n with
  | Element tag classes attributes _ =>
      Element tag classes attributes
        (if String.eqb s "" then [] else [Text s])
  | Text _ => Text s
  end.

(** [n.appendChild(child)] *)
Definition appendChild (child : node) (n : node) : node :=
  match n with
  | Element tag classes attributes children =>
      Element tag classes attributes (children ++ [child])
  | Text _ => n
  end.

Definition is_li (n : node) : bool :=
  match n with
  | Element tag _ _ _ => String.eqb tag "li"
  | Text _ => false
  end.

(** What a page script can observe and change.  The elements [#query],
    [#algorithm] and [#results] are those of the page templates. *)
Record world : Type := World {
  query_value : string;               (* [#query].value *)
  algorithm_value : string;           (* [#algorithm].value *)
  results_children : list node;       (* the child nodes of [#results] *)
  root_classes : list string;         (* [document.documentElement.classList] *)
  local_storage : gmap string string; (* [localStorage] *)
  this_error_message : value;         (* property [error_message] of the global object *)
  alerts : list string;               (* [alert] dialogs shown, oldest first *)
  console_errors : list (string * exn) (* [console.error(label, error)] calls *)
}.

(** The list items among the children of [#results]. *)
Definition list_items (w : world) : list node :=
  filter (fun n => is_li n = true) (results_children w).

(** A page as the browser hands it to a script: nothing shown, nothing
    logged, no [error_message] on the global object. *)
Definition fresh (query algorithm : string) (storage : gmap string string)
    (old_results : list node) : world :=
  {| query_value := query; algorithm_value := algorithm;
     results_children := old_results; root_classes := [];
     local_storage := storage; this_error_message := Undefined;
     alerts := []; console_errors := [] |}.

(** *** Script code: a state and exception monad *)

(** Code running over a state [S]: it ends normally with a result or by
    throwing, and in both cases leaves a state behind. *)
Definition M (S A : Type) : Type := S -> S * completion A.

Definition ret {S A} (a : A) : M S A := fun s => (s, Normal a).

Definition bind {S A B} (c : M S A) (k : A -> M S B) : M S B :=
  fun s =>
    match c s with
    | (s', Normal a) => k a s'
    | (s', Throw e) => (s', Throw e)
    end.

(** An effect-free evaluation that may throw. *)
Definition eval {S A} (c : completion A) : M S A := fun s => (s, c).

(** [promise.catch(handler)] at the end of a chain, which is also
    [try { c } catch (e) { handler(e) }]. *)
Definition catch {S} (c : M S unit) (handler : exn -> M S unit) : M S unit :=
  fun s =>
    match c s with
    | (s', Normal tt) => (s', Normal tt)
    | (s', Throw e) => handler e s'
    end.

Definition modify {S} (f : S -> S) : M S unit := fun s => (f s, Normal tt).
Definition read {S A} (f : S -> A) : M S A := fun s => (s, Normal (f s)).

(** The state a piece of code leaves behind. *)
Definition exec {S A} (c : M S A) (s : S) : S := fst (c s).

Declare Scope js_scope.
Delimit Scope js_scope with js.
Notation "x <- c ;; k" := (bind c (fun x => k))
  (at level 100, c at next level, k at level 200, right associativity) : js_scope.
Notation "c ;; k" := (bind c (fun _ => k))
  (at level 100, k at level 200, right associativity) : js_scope.

(** *** Browser operations *)

(** Record updates, one per field the scripts write. *)
Definition with_results_children (f : list node -> list node) (w : world) : world :=
  {| query_value := query_value w; algorithm_value := algorithm_value w;
     results_children := f (results_children w);
     root_classes := root_classes w; local_storage := local_storage w;
     this_error_message := this_error_message w;
     alerts := alerts w; console_errors := console_errors w |}.

Definition with_root_classes (f : list string -> list string) (w : world) : world :=
  {| query_value := query_value w; algorithm_value := algorithm_value w;
     results_children := results_children w;
     root_classes := f (root_classes w); local_storage := local_storage w;
     this_error_message := this_error_message w;
     alerts := alerts w; console_errors := console_errors w |}.

Definition with_this_error_message (v : value) (w : world) : world :=
  {| query_value := query_value w; algorithm_value := algorithm_value w;
     results_children := results_children w;
     root_classes := root_classes w; local_storage := local_storage w;
     this_error_message := v;
     alerts := alerts w; console_errors := console_errors w |}.

Definition with_alerts (f : list string -> list string) (w : world) : world :=
  {| query_value := query_value w; algorithm_value := algorithm_value w;
     results_children := results_children w;
     root_classes := root_classes w; local_storage := local_storage w;
     this_error_message := this_error_message w;
     alerts := f (alerts w); console_errors := console_errors w |}.

Definition with_console_errors
    (f : list (string * exn) -> list (string * exn)) (w : world) : world :=
  {| query_value := query_value w; algorithm_value := algorithm_value w;
     results_children := results_children w;
     root_classes := root_classes w; local_storage := local_storage w;
     this_error_message := this_error_message w;
     alerts := alerts w; console_errors := f (console_errors w) |}.

(** [resultsElement.innerHTML = ""] *)
Definition clear_results : M world unit :=
  modify (with_results_children (fun _ => [])).

(** [resultsElement.appendChild(n)] *)
Definition append_result (n : node) : M world unit :=
  modify (with_results_children (fun children => children ++ [n])).

(** [this.error_message = v] in a plain function call of a classic script *)
Definition set_this_error_message (v : value) : M world unit :=
  modify (with_this_error_message v).

(** [alert(msg)] *)
Definition alert (msg : string) : M world unit :=
  modify (with_alerts (fun shown => shown ++ [msg])).

(** [console.error(label, e)] *)
Definition console_error (label : string) (e : exn) : M world unit :=
  modify (with_console_errors (fun logged => logged ++ [(label, e)])).

(** [document.documentElement.classList.add(c)] *)
Definition root_classList_add (c : string) (w : world) : world :=
  with_root_classes (classList_add c) w.

(** [localStorage.getItem(k)]: the stored string, or [null] ([None]). *)
Definition getItem (k : string) (w : world) : option string :=
  local_storage w !! k.

(** *** The network *)

Record request : Type := Request {
  url : string;
  method : string;
  content_type : string;
  body : value                      (* the value given to [JSON.stringify] *)
}.

(** A response: its [ok] flag and what [response.json()] settles to. *)
Record response : Type := Response {
  ok : bool;
  json : completion value
}.

(** What the promise returned by [fetch] settles to. *)
Inductive fetch_outcome : Type :=
| Fulfilled (r : response)
| Rejected (e : exn).

(** The server and the transport, seen from the page. *)
Definition network : Type := request -> fetch_outcome.

(** A DOM event, as far as the listeners look at it. *)
Record event : Type := Event {
  key : option string;              (* [event.key]: a string on keyboard events *)
  defaultPrevented : bool
}.

(** [event.preventDefault()] on a cancelable event ([keyup] and [submit]
    are). *)
Definition preventDefault (ev : event) : event :=
  {| key := key ev; defaultPrevented := true |}.

End Browser.


(* ===================================================================== *)
(** ** The results page *)
(* ===================================================================== *)

Module ResultsPage.
Import JS Browser.
Local Open Scope js_scope.

(** The variables the script declares at its top level.  They are script
    variables, not properties of the global object: [this.error_message] in
    [renderResults] is [Browser.this_error_message], another cell. *)
Record state : Type := State {
  browser : world;
  error_message : value;              (* [let error_message = ""] *)
  results : value                     (* [let results = []] *)
}.

(** Running the top level of the script. *)
Definition script_load (w : world) : state :=
  {| browser := w; error_message := Str ""; results := Arr [] |}.

(** Code that touches the browser only. *)
Definition in_browser {A} (c : M world A) : M state A :=
  fun s =>
    let (w', r) := c (browser s) in
    ({| browser := w'; error_message := error_message s; results := results s |}, r).

(** [error_message = v] *)
Definition set_error_message (v : value) : M state unit :=
  modify (fun s =>
    {| browser := browser s; error_message := v; results := results s |}).

(** [results = v] *)
Definition set_results (v : value) : M state unit :=
  modify (fun s =>
    {| browser := browser s; error_message := error_message s; results := v |}).

(** The list item of one result: [createElement("li")] with the class
    [result], and nothing inside. *)
Definition resultItem : node := add_class "result" (createElement "li").

(** The body of [for (const result of searchResults)], with its [break]. *)
Fixpoint render_loop (items : list value) : M world unit :=
  match items with
  | [] => ret tt
  | result :: rest =>
      e <- eval (get result "error_message") ;;
      if truthy e then
        set_this_error_message e      (* then [break] *)
      else
        append_result resultItem ;;
        render_loop rest
  end.

Definition renderResults (searchResults : value) : M world unit :=
  clear_results ;;
  items <- eval (iterate searchResults) ;;
  render_loop items ;;
  e <- read this_error_message ;;
  if truthy e then
    msg <- eval (concat "Error retrieving search results: " e) ;;
    alert msg
  else
    len <- eval (get searchResults "length") ;;
    if strict_eq_num len "0" then alert "No results found for your query."
    else ret tt.

(** The request of the [fetch] call. *)
Definition the_request (w : world) : request :=
  {| url := "/results"; method := "POST";
     content_type := "application/json";
     body := Obj (<["query" := Str (query_value w)]>
                  (<["algorithm" := Str (algorithm_value w)]> ∅)) |}.

(** First [then]: [(response) => ...] *)
Definition then_response (r : response) : completion value :=
  if ok r then json r else Throw (Error "Network response was not ok").

(** Second [then]: [(data) => ...], over the function the name
    [renderResults] is bound to. *)
Definition then_data (render : value -> M world unit) (data : value)
    : M state unit :=
  data <- eval (set data "results" Undefined) ;;
  e <- eval (get data "error_message") ;;
  if truthy e then
    set_error_message e ;;
    msg <- eval (concat "Error from server: " e) ;;
    in_browser (alert msg)            (* then [return] *)
  else
    r <- eval (get data "results") ;;
    set_results r ;;
    r <- read results ;;
    in_browser (render r).

(** [catch]: [(error) => ...] *)
Definition catch_error (e : exn) : M state unit :=
  in_browser (console_error "Error fetching search results:" e).

(** The promise chain hung on the outcome of [fetch]; its callbacks run
    one after the other once the outcome is known. *)
Definition settle (render : value -> M world unit) (o : fetch_outcome)
    : M state unit :=
  catch
    (match o with
     | Rejected e => eval (Throw e)
     | Fulfilled r => data <- eval (then_response r) ;; then_data render data
     end)
    catch_error.

Definition listener_with (render : value -> M world unit) (net : network)
    : M state unit :=
  w <- read browser ;;
  settle render (net (the_request w)).

(** The [DOMContentLoaded] listener. *)
Definition DOMContentLoaded_listener (net : network) : M state unit :=
  listener_with renderResults net.

End ResultsPage.

(* ===================================================================== *)
(** ** The documents page: templates/documents/script.js *)
(* ===================================================================== *)

Module DocumentsPage.
Import JS Browser.
Local Open Scope js_scope.

(** The list item built for one result.  The values read from the result
    are converted to strings where they enter the DOM: by the [href]
    setter, by the [textContent] setter (nullable) and by
    [createTextNode]; a value that has no string form makes the conversion
    throw, before anything is appended. *)
Definition build_item (result : value) : M world node :=
  let resultItem := add_class "result" (createElement "li") in
  let titleLink := createElement "a" in
  url <- eval (get result "url") ;;
  href <- eval (DOMString url) ;;
  let titleLink := set_attribute "href" href titleLink in
  title <- eval (get result "title") ;;
  textContent <- eval (nullable_DOMString title) ;;
  let titleLink := set_textContent textContent titleLink in
  snippet <- eval (get result "snippet") ;;
  data <- eval (DOMString snippet) ;;
  let snippetText := Text data in
  let resultItem := appendChild titleLink resultItem in
  let resultItem := appendChild (createElement "br") resultItem in
  let resultItem := appendChild snippetText resultItem in
  ret resultItem.

(** The body of [for (const result of searchResults)]. *)
Fixpoint render_loop (items : list value) : M world unit :=
  match items with
  | [] => ret tt
  | result :: rest =>
      resultItem <- build_item result ;;
      append_result resultItem ;;
      render_loop rest
  end.

Definition renderResults (searchResults : value) : M world unit :=
  clear_results ;;
  items <- eval (iterate searchResults) ;;
  render_loop items.

(** The request of the [fetch] call. *)
Definition the_request (w : world) : request :=
  {| url := "/documents"; method := "POST";
     content_type := "application/json";
     body := Obj (<["query" := Str (query_value w)]>
                  (<["algorithm" := Str (algorithm_value w)]> ∅)) |}.

(** First [then]: [(response) => ...] *)
Definition then_response (r : response) : completion value :=
  if ok r then json r else Throw (Error "Network response was not ok").

(** Second [then]: [(data) => ...], over the function the name
    [renderResults] is bound to. *)
Definition then_data (render : value -> M world unit) (data : value)
    : M world unit :=
  e <- eval (get data "error_message") ;;
  if truthy e then
    msg <- eval (concat "Error from server: " e) ;;
    alert msg                         (* then [return] *)
  else
    r <- eval (get data "results") ;;
    render r.

(** [catch]: [(error) => ...] *)
Definition catch_error (e : exn) : M world unit :=
  console_error "Error fetching search results:" e.

(** The promise chain hung on the outcome of [fetch]. *)
Definition settle (render : value -> M world unit) (o : fetch_outcome)
    : M world unit :=
  catch
    (match o with
     | Rejected e => eval (Throw e)
     | Fulfilled r => data <- eval (then_response r) ;; then_data render data
     end)
    catch_error.

Definition listener_with (render : value -> M world unit) (net : network)
    : M world unit :=
  w <- read (fun w => w) ;;
  settle render (net (the_request w)).

(** The [submit] listener: it cancels the submission and fetches. *)
Definition submit_listener (net : network) (ev : event) (w : world)
    : event * world :=
  (preventDefault ev, exec (listener_with renderResults net) w).

(** [const nightThemeEnabled = localStorage.getItem('nightTheme') === 'true'] *)
Definition nightThemeEnabled (w : world) : bool :=
  bool_decide (getItem "nightTheme" w = Some "true").

(** Running the top level of the script: the theme is applied (the listener
    above is registered for later). *)
Definition script_load (w : world) : world :=
  if nightThemeEnabled w then root_classList_add "night-theme" w else w.

End DocumentsPage.

(* ===================================================================== *)
(** ** The index page *)
(* ===================================================================== *)

Module IndexPage.
Import JS Browser.

(** The page as the [keyup] listener changes it: how many times
    [form.submit()] was called on the form of the page. *)
Record page : Type := Page {
  form_submissions : nat
}.

(** [document.querySelector('form').submit()] *)
Definition submit (p : page) : page :=
  {| form_submissions := S (form_submissions p) |}.

(** The [keyup] listener of the query field. *)
Definition keyup_listener (ev : event) (p : page) : event * page :=
  if bool_decide (key ev = Some "Enter") then (preventDefault ev, submit p)
  else (ev, p).

Local Open Scope js_scope.

(** The algorithm selector: the values of its option elements, in document
    order, and its [selectedIndex] ([-1] when no option is selected). *)
Record select : Type := Select {
  options : list string;
  selectedIndex : Z
}.

(** What the other two bindings of the script look at and change. *)
Record widgets : Type := Widgets {
  algorithmSelect : select;
  console_log : list (string * string);   (* [console.log(label, value)] calls *)
  focused : option string                 (* the id of the focused element *)
}.

(** [sel.options[i]]: the option at index [i], or [undefined] ([None]). *)
Definition option_at (sel : select) (i : Z) : option string :=
  if Z.ltb i 0 then None else options sel !! Z.to_nat i.

(** [console.log(label, v)] *)
Definition log (label v : string) : M widgets unit :=
  modify (fun g =>
    {| algorithmSelect := algorithmSelect g;
       console_log := console_log g ++ [(label, v)];
       focused := focused g |}).

(** The [change] listener of the selector; reading [.value] of a missing
    option throws. *)
Definition change_listener : M widgets unit :=
  sel <- read algorithmSelect ;;
  selectedAlgorithm <-
    eval (match option_at sel (selectedIndex sel) with
          | Some v => Normal v
          | None => Throw TypeError
          end) ;;
  log "Selected algorithm:" selectedAlgorithm.

(** [window.onload]: [document.getElementById('query').focus()] *)
Definition onload : M widgets unit :=
  modify (fun g =>
    {| algorithmSelect := algorithmSelect g;
       console_log := console_log g;
       focused := Some "query" |}).

End IndexPage.


(* ===================================================================== *)
(** ** Vocabulary of the statements *)
(* ===================================================================== *)

Module Spec.
Import JS Browser.

(** [v] is an object with a property [k] of its own, whatever its value. *)
Definition has_own (k : string) (v : value) : bool :=
  match v with
  | Obj props => bool_decide (is_Some (props !! k))
  | _ => false
  end.

(** The test [if (x.error_message)] can be made on [x] and fails. *)
Definition error_free (x : value) : bool :=
  match get x "error_message" with
  | Normal e => negb (truthy e)
  | Throw _ => false
  end.

(** The properties of [x] can be read: [x] is neither [null] nor
    [undefined]. *)
Definition readable (x : value) : bool :=
  match x with
  | Undefined | Null => false
  | _ => true
  end.

(** [x.k] where it cannot throw. *)
Definition prop (x : value) (k : string) : value :=
  match get x k with
  | Normal v => v
  | Throw _ => Undefined
  end.

(** The exception a [fetch] fails with before any body is seen: the promise
    was rejected, or the body of an OK response is not JSON. *)
Definition transport_failure (o : fetch_outcome) : option exn :=
  match o with
  | Rejected e => Some e
  | Fulfilled r =>
      if ok r then match json r with Throw e => Some e | Normal _ => None end
      else None
  end.

(** [v] has a string form. *)
Definition printable (v : value) : bool :=
  match to_string v with
  | Some _ => true
  | None => false
  end.

(** The string form of a printable value. *)
Definition text (v : value) : string :=
  match to_string v with
  | Some s => s
  | None => ""
  end.

(** The documents page can build the list item of [x]: the properties of
    [x] can be read, and its [url], [title] and [snippet] have a string
    form (a missing or [null] title counts as the empty string). *)
Definition renderable (x : value) : bool :=
  readable x
  && printable (prop x "url")
  && match prop x "title" with
     | Undefined | Null => true
     | title => printable title
     end
  && printable (prop x "snippet").

(** The list item the documents page shows for a renderable result: a link
    with the result's [url] as [href] and its [title] as text, a line
    break, the [snippet] as text. *)
Definition document_item (result : value) : node :=
  Element "li" ["result"] []
    [Element "a" [] [("href", text (prop result "url"))]
       (match prop result "title" with
        | Undefined | Null => []
        | title => if String.eqb (text title) "" then [] else [Text (text title)]
        end);
     Element "br" [] [] [];
     Text (text (prop result "snippet"))].

End Spec.

(* ===================================================================== *)
(** ** Sample pages and responses *)
(* ===================================================================== *)

Module Sample.
Import JS Browser.

(** A search result as the server sends it. *)
Definition hit (n : string) : value :=
  Obj (<["url" := Str ("/doc/" +:+ n)]>
       (<["title" := Str ("Document " +:+ n)]>
        (<["snippet" := Str "..."]> ∅))).

(** A result that carries an error message. *)
Definition broken (msg : value) : value :=
  Obj (<["error_message" := msg]> ∅).

(** A value without a string form: an object with a [toString] property of
    its own, which after [JSON.parse] is never a function. *)
Definition unprintable : value := Obj {[ "toString" := Num "1" ]}.

(** Response bodies. *)
Definition body_results (items : list value) : value :=
  Obj (<["results" := Arr items]> ∅).

Definition body_error (msg : value) (items : list value) : value :=
  Obj (<["error_message" := msg]> (<["results" := Arr items]> ∅)).

(** A server that answers every request with the same response. *)
Definition answers (is_ok : bool) (body : value) : network :=
  fun _ => Fulfilled {| ok := is_ok; json := Normal body |}.

(** A page with one stale node in [#results]. *)
Definition page : world :=
  fresh "rocq" "tfidf" ∅ [Text "stale"].

Definition keyup (k : string) : event :=
  {| key := Some k; defaultPrevented := false |}.

Definition submit_event : event :=
  {| key := None; defaultPrevented := false |}.

(** Local storage after the user chose the night theme, and after they
    turned it off again. *)
Definition night : gmap string string := {[ "nightTheme" := "true" ]}.
Definition day : gmap string string := {[ "nightTheme" := "false" ]}.

End Sample.

Import JS Browser Spec.

(* ===================================================================== *)
(** ** The JavaScript fragment on examples *)
(* ===================================================================== *)

Example truthy_values :
  map truthy [Undefined; Null; Bool false; Num "0"; Num "NaN"; Str "";
              Str "0"; Num "-1"; Num "1e+21"; Arr []; Obj ∅]
  = [false; false; false; false; false; false;
     true; true; true; true; true].
Proof. reflexivity. Qed.

Example to_string_values :
  map to_string [Str "index offline"; Num "-5"; Num "1e+21"; Null; Arr [];
                 Arr [Num "1"; Null; Arr [Str "a"; Bool true]; Obj ∅];
                 Obj ∅; Obj {[ "toString" := Num "1" ]};
                 Arr [Obj {[ "toString" := Null ]}]]
  = [Some "index offline"; Some "-5"; Some "1e+21"; Some "null"; Some "";
     Some "1,,a,true,[object Object]";
     Some "[object Object]"; None; None].
Proof. vm_compute. reflexivity. Qed.

Example get_values :
  (get (Sample.hit "1") "title", get (Sample.hit "1") "error_message",
   get (Arr [Null]) "length", get (Num "3") "results", get Null "url")
  = (Normal (Str "Document 1"), Normal Undefined,
     Normal (Num "1"), Normal Undefined, Throw TypeError).
Proof. vm_compute. reflexivity. Qed.

Example iterate_values :
  (iterate (Arr [Null; Num "1"]), iterate (Str "ab"), iterate Undefined,
   iterate (Obj ∅))
  = (Normal [Null; Num "1"], Normal [Str "a"; Str "b"], Throw TypeError,
     Throw TypeError).
Proof. reflexivity. Qed.

(** The results page on an OK response with two results: nothing is
    rendered, the stale node is gone, a TypeError is logged. *)
Example results_page_run :
  exec (ResultsPage.DOMContentLoaded_listener
          (Sample.answers true
             (Sample.body_results [Sample.hit "1"; Sample.hit "2"])))
       (ResultsPage.script_load Sample.page)
  = {| ResultsPage.browser :=
         with_console_errors
           (fun _ => [("Error fetching search results:", TypeError)])
           (with_results_children (fun _ => []) Sample.page);
       ResultsPage.error_message := Str "";
       ResultsPage.results := Undefined |}.
Proof. vm_compute. reflexivity. Qed.

(** The documents page on the same response: two items. *)
Example documents_page_run :
  exec (DocumentsPage.listener_with DocumentsPage.renderResults
          (Sample.answers true
             (Sample.body_results [Sample.hit "1"; Sample.hit "2"])))
       Sample.page
  = with_results_children
      (fun _ => [document_item (Sample.hit "1"); document_item (Sample.hit "2")])
      Sample.page.
Proof. vm_compute. reflexivity. Qed.

(* ===================================================================== *)
(** ** The render loops *)
(* ===================================================================== *)

Ltac run :=
  unfold clear_results, append_result, set_this_error_message, alert,
    console_error;
  unfold exec, bind, ret, eval, catch, modify, read;
  cbn [fst snd].

Lemma with_results_children_app (l1 l2 : list node) (w : world) :
  with_results_children (fun c => c ++ l2)
    (with_results_children (fun c => c ++ l1) w)
  = with_results_children (fun c => c ++ (l1 ++ l2)) w.
Proof. unfold with_results_children; cbn. by rewrite app_assoc. Qed.

Lemma with_results_children_nil (w : world) :
  with_results_children (fun c => c ++ []) w = w.
Proof. destruct w; unfold with_results_children; cbn. by rewrite app_nil_r. Qed.

Lemma error_free_get (x : value) :
  error_free x = true ->
  exists e, get x "error_message" = Normal e /\ truthy e = false.
Proof.
  unfold error_free. destruct (get x "error_message") as [e|]; [|done].
  intros H. exists e. split; [done|]. by destruct (truthy e).
Qed.

Lemma get_readable (x : value) (k : string) (v : value) :
  get x k = Normal v -> readable x = true.
Proof. by destruct x. Qed.

(** The results page: the loop appends an empty item per error-free result
    and stops at the first result whose [error_message] is truthy. *)
Lemma results_loop_stops (pre post : list value) (r e : value) (w : world) :
  forallb error_free pre = true ->
  get r "error_message" = Normal e -> truthy e = true ->
  ResultsPage.render_loop (pre ++ r :: post) w
  = (with_this_error_message e
       (with_results_children
          (fun c => c ++ repeat ResultsPage.resultItem (length pre)) w),
     Normal tt).
Proof.
  intros Hpre Hr He. revert w.
  induction pre as [|x pre IH]; intros w; cbn [app length repeat ResultsPage.render_loop].
  - run. rewrite Hr, He. by rewrite with_results_children_nil.
  - cbn [forallb] in Hpre. apply andb_prop in Hpre as [Hx Hpre].
    destruct (error_free_get x Hx) as (ex & Hgx & Htx).
    run. rewrite Hgx, Htx. rewrite (IH Hpre).
    by rewrite with_results_children_app.
Qed.

Lemma results_loop_all (items : list value) (w : world) :
  forallb error_free items = true ->
  ResultsPage.render_loop items w
  = (with_results_children
       (fun c => c ++ repeat ResultsPage.resultItem (length items)) w,
     Normal tt).
Proof.
  revert w.
  induction items as [|x items IH]; intros w Hall; cbn [length repeat ResultsPage.render_loop].
  - run. by rewrite with_results_children_nil.
  - cbn [forallb] in Hall. apply andb_prop in Hall as [Hx Hall].
    destruct (error_free_get x Hx) as (ex & Hgx & Htx).
    run. rewrite Hgx, Htx, (IH _ Hall).
    by rewrite with_results_children_app.
Qed.

Lemma printable_text (v : value) :
  printable v = true -> to_string v = Some (text v).
Proof. unfold printable, text. by destruct (to_string v). Qed.

Lemma build_item_renderable (x : value) (w : world) :
  renderable x = true ->
  DocumentsPage.build_item x w = (w, Normal (document_item x)).
Proof.
  unfold renderable. intros Hx.
  apply andb_prop in Hx as [Hx Hsnippet].
  apply andb_prop in Hx as [Hx Htitle].
  apply andb_prop in Hx as [Hx Hurl].
  assert (Hget : forall k, get x k = Normal (prop x k)).
  { intros k. unfold prop. by destruct x. }
  unfold DocumentsPage.build_item, document_item. run.
  rewrite !Hget. unfold DOMString.
  rewrite (printable_text _ Hurl), (printable_text _ Hsnippet).
  destruct (prop x "title") eqn:Ht; cbn [nullable_DOMString]; unfold DOMString;
    try rewrite (printable_text _ Htitle); reflexivity.
Qed.

(** A result that is not renderable makes [build_item] throw. *)
Lemma build_item_throws (x : value) (w : world) :
  renderable x = false ->
  DocumentsPage.build_item x w = (w, Throw TypeError).
Proof.
  unfold renderable. intros Hx.
  destruct (readable x) eqn:Hr.
  - assert (Hget : forall k, get x k = Normal (prop x k)).
    { intros k. unfold prop. by destruct x. }
    unfold DocumentsPage.build_item. run. rewrite !Hget. unfold DOMString.
    cbn [andb] in Hx. unfold printable in Hx.
    destruct (to_string (prop x "url")) as [href|]; [|reflexivity].
    cbn [andb] in Hx.
    destruct (prop x "title") eqn:Ht; cbn [nullable_DOMString]; unfold DOMString;
      repeat match goal with
             | |- context [to_string ?v] =>
                 destruct (to_string v); cbn [andb] in Hx |- *
             end;
      first [reflexivity | discriminate Hx].
  - unfold DocumentsPage.build_item. by destruct x; run.
Qed.

(** The documents page: the loop appends the item of every result. *)
Lemma documents_loop_all (items : list value) (w : world) :
  forallb renderable items = true ->
  DocumentsPage.render_loop items w
  = (with_results_children (fun c => c ++ map document_item items) w,
     Normal tt).
Proof.
  revert w.
  induction items as [|x items IH]; intros w Hall; cbn [map DocumentsPage.render_loop].
  - run. by rewrite with_results_children_nil.
  - cbn [forallb] in Hall. apply andb_prop in Hall as [Hx Hall].
    unfold bind at 1. rewrite (build_item_renderable x w Hx).
    run. rewrite (IH _ Hall).
    by rewrite with_results_children_app.
Qed.

(* ===================================================================== *)
(** ** The renderers *)
(* ===================================================================== *)

Lemma with_results_children_clear (l : list node) (w : world) :
  with_results_children (fun c => c ++ l)
    (with_results_children (fun _ => []) w)
  = with_results_children (fun _ => l) w.
Proof. reflexivity. Qed.

(** Results page, a result with an error message at position [length pre]:
    the container holds the items of the results before it, the global
    object keeps the message, the alert shows it. *)
Lemma results_render_error (pre post : list value) (r e : value)
    (msg : string) (w : world) :
  forallb error_free pre = true ->
  get r "error_message" = Normal e -> truthy e = true ->
  to_string e = Some msg ->
  ResultsPage.renderResults (Arr (pre ++ r :: post)) w
  = (with_alerts
       (fun shown => shown ++ ["Error retrieving search results: " +:+ msg])
       (with_this_error_message e
          (with_results_children
             (fun _ => repeat ResultsPage.resultItem (length pre)) w)),
     Normal tt).
Proof.
  intros Hpre Hr He Hmsg. unfold ResultsPage.renderResults, iterate. run.
  rewrite (results_loop_stops pre post r e _ Hpre Hr He).
  cbn [this_error_message with_this_error_message]. rewrite He.
  unfold concat. rewrite Hmsg. reflexivity.
Qed.

(** The same without asking that the message can be spliced into the alert
    text: the container and the global object end up the same. *)
Lemma results_render_error_page (pre post : list value) (r e : value)
    (w : world) :
  forallb error_free pre = true ->
  get r "error_message" = Normal e -> truthy e = true ->
  let w' := exec (ResultsPage.renderResults (Arr (pre ++ r :: post))) w in
  results_children w' = repeat ResultsPage.resultItem (length pre) /\
  this_error_message w' = e.
Proof.
  intros Hpre Hr He. unfold ResultsPage.renderResults, iterate. run.
  rewrite (results_loop_stops pre post r e _ Hpre Hr He).
  cbn [this_error_message with_this_error_message]. rewrite He.
  unfold concat. by destruct (to_string e).
Qed.

(** The length of a non-empty sequence is not [0]. *)
Lemma length_not_zero (n : nat) :
  strict_eq_num (number_of_nat (S n)) "0" = false.
Proof.
  unfold strict_eq_num, number_of_nat. apply String.eqb_neq. intros H.
  assert (Hd : Nat.to_uint (S n) <> Decimal.Nil).
  { pose proof (Unsigned.to_of (Nat.to_uint (S n))) as Hn.
    rewrite Unsigned.of_to in Hn. rewrite Hn. apply unorm_nonnil. }
  pose proof (NilZero.usu _ Hd) as Hu. rewrite H in Hu.
  cbn in Hu. injection Hu as Hu.
  apply (Unsigned.to_uint_inj 0 (S n)) in Hu. discriminate.
Qed.

(** Results page, error-free results and no message on the global object:
    one item per result and, for a non-empty sequence, no alert. *)
Lemma results_render_clean (items : list value) (w : world) :
  forallb error_free items = true ->
  truthy (this_error_message w) = false ->
  ResultsPage.renderResults (Arr items) w
  = (match items with
     | [] => with_alerts (fun shown => shown ++ ["No results found for your query."])
     | _ :: _ => fun w' => w'
     end
       (with_results_children
          (fun _ => repeat ResultsPage.resultItem (length items)) w),
     Normal tt).
Proof.
  intros Hall Hw. unfold ResultsPage.renderResults, iterate. run.
  rewrite (results_loop_all items _ Hall).
  cbn [this_error_message with_results_children]. rewrite Hw.
  destruct items as [|x items]; [reflexivity|].
  change (get (Arr (x :: items)) "length")
    with (Normal (number_of_nat (S (length items)))).
  cbv beta iota. by rewrite length_not_zero.
Qed.

(** Results page, error-free results but a message left on the global
    object: the old message is shown again. *)
Lemma results_render_stale (items : list value) (msg : string) (w : world) :
  forallb error_free items = true ->
  truthy (this_error_message w) = true ->
  to_string (this_error_message w) = Some msg ->
  ResultsPage.renderResults (Arr items) w
  = (with_alerts
       (fun shown => shown ++ ["Error retrieving search results: " +:+ msg])
       (with_results_children
          (fun _ => repeat ResultsPage.resultItem (length items)) w),
     Normal tt).
Proof.
  intros Hall Hw Hmsg. unfold ResultsPage.renderResults, iterate. run.
  rewrite (results_loop_all items _ Hall).
  cbn [this_error_message with_results_children]. rewrite Hw.
  unfold concat. cbn [this_error_message]. rewrite Hmsg. reflexivity.
Qed.

(** Documents page: one item per result, never an alert. *)
Lemma documents_render_all (items : list value) (w : world) :
  forallb renderable items = true ->
  DocumentsPage.renderResults (Arr items) w
  = (with_results_children (fun _ => map document_item items) w, Normal tt).
Proof.
  intros Hall. unfold DocumentsPage.renderResults, iterate. run.
  by rewrite (documents_loop_all items _ Hall).
Qed.

(** Results page, a message without a string form: rendering stops and
    the message is stored as before, then building the alert text throws. *)
Lemma results_render_error_unprintable (pre post : list value) (r e : value)
    (w : world) :
  forallb error_free pre = true ->
  get r "error_message" = Normal e -> truthy e = true ->
  to_string e = None ->
  ResultsPage.renderResults (Arr (pre ++ r :: post)) w
  = (with_this_error_message e
       (with_results_children
          (fun _ => repeat ResultsPage.resultItem (length pre)) w),
     Throw TypeError).
Proof.
  intros Hpre Hr He Hmsg. unfold ResultsPage.renderResults, iterate. run.
  rewrite (results_loop_stops pre post r e _ Hpre Hr He).
  cbn [this_error_message with_this_error_message]. rewrite He.
  unfold concat. rewrite Hmsg. reflexivity.
Qed.

Lemma repeat_resultItem_li (n : nat) :
  filter (fun x => is_li x = true) (repeat ResultsPage.resultItem n)
  = repeat ResultsPage.resultItem n.
Proof. induction n as [|n IH]; [done|]. cbn [repeat]. by rewrite filter_cons_True, IH. Qed.

Lemma document_items_li (items : list value) :
  filter (fun x => is_li x = true) (map document_item items)
  = map document_item items.
Proof.
  induction items as [|x items IH]; [done|].
  cbn [map]. by rewrite filter_cons_True, IH.
Qed.

(* ===================================================================== *)
(** ** Claims about the renderers *)
(* ===================================================================== *)

(** C4, as the code has it.  On the results page, when some result has a
    truthy [error_message] (a non-empty string, say) and the results before
    the first such one have none, rendering stops there: the container holds
    one list item per earlier result and none for that result or a later
    one, and the message is kept on the global object.  The alert shows the
    message when it has a string form; when it has none, the renderer
    throws a TypeError instead and shows no alert.  The renderer of the
    documents page makes no such test: given results it can render, it
    appends an item for every one of them and shows no alert. *)
Theorem C4_results_renderer_stops_at_first_error
    (pre post : list value) (r e : value) (w : world) :
  forallb error_free pre = true ->
  get r "error_message" = Normal e -> truthy e = true ->
  (let w' := exec (ResultsPage.renderResults (Arr (pre ++ r :: post))) w in
   length (list_items w') = length pre /\
   this_error_message w' = e /\
   (forall msg : string, to_string e = Some msg ->
    alerts w' = alerts w ++ ["Error retrieving search results: " +:+ msg]) /\
   (to_string e = None ->
    alerts w' = alerts w /\
    snd (ResultsPage.renderResults (Arr (pre ++ r :: post)) w)
    = Throw TypeError))
  /\
  (forallb renderable (pre ++ r :: post) = true ->
   let w' := exec (DocumentsPage.renderResults (Arr (pre ++ r :: post))) w in
   list_items w' = map document_item (pre ++ r :: post) /\
   length (list_items w') = length pre + 1 + length post /\
   alerts w' = alerts w).
Proof.
  intros Hpre Hr He. split.
  - destruct (results_render_error_page pre post r e w Hpre Hr He)
      as [Hchildren Hthis].
    cbn zeta. unfold list_items. rewrite Hchildren, Hthis.
    rewrite repeat_resultItem_li, repeat_length.
    split; [reflexivity|]. split; [reflexivity|]. split.
    + intros msg Hmsg. unfold exec.
      by rewrite (results_render_error pre post r e msg w Hpre Hr He Hmsg).
    + intros Hnone. unfold exec.
      by rewrite (results_render_error_unprintable pre post r e w
                    Hpre Hr He Hnone).
  - intros Hall. unfold exec. rewrite (documents_render_all _ w Hall).
    cbn. unfold list_items. cbn.
    rewrite document_items_li, length_map, length_app. cbn [length].
    repeat split. lia.
Qed.

Lemma C4_witness :
  (let w' := exec (ResultsPage.renderResults
                     (Arr ([Sample.hit "1"] ++ Sample.broken (Str "index offline")
                           :: [Sample.hit "2"]))) Sample.page in
   length (list_items w') = 1 /\
   this_error_message w' = Str "index offline" /\
   alerts w' = alerts Sample.page
               ++ ["Error retrieving search results: " +:+ "index offline"])
  /\
  (let w' := exec (DocumentsPage.renderResults
                     (Arr ([Sample.hit "1"] ++ Sample.broken (Str "index offline")
                           :: [Sample.hit "2"]))) Sample.page in
   length (list_items w') = 1 + 1 + 1 /\
   alerts w' = alerts Sample.page).
Proof.
  destruct (C4_results_renderer_stops_at_first_error
              [Sample.hit "1"] [Sample.hit "2"]
              (Sample.broken (Str "index offline")) (Str "index offline")
              Sample.page eq_refl eq_refl eq_refl)
    as [(Hitems & Hthis & Halert & _) Hdocuments].
  split.
  - split; [exact Hitems|]. split; [exact Hthis|].
    exact (Halert "index offline" eq_refl).
  - destruct (Hdocuments eq_refl) as (_ & Hlen & Halerts).
    split; [exact Hlen | exact Halerts].
Defined.

(** C4 as stated fails: the documents page renders a result that carries an
    error message like any other and shows no alert; on the results page an
    [error_message] property that is present but empty stops nothing; and a
    message without a string form stops the rendering but is not shown. *)
Lemma C4_counterexample :
  (let w' := exec (DocumentsPage.renderResults
                     (Arr [Sample.broken (Str "index offline")])) Sample.page in
   has_own "error_message" (Sample.broken (Str "index offline")) = true /\
   length (list_items w') = 1 /\ alerts w' = [])
  /\
  (let w' := exec (ResultsPage.renderResults
                     (Arr [Sample.broken (Str ""); Sample.hit "2"])) Sample.page in
   has_own "error_message" (Sample.broken (Str "")) = true /\
   length (list_items w') = 2 /\ alerts w' = [])
  /\
  (let w' := exec (ResultsPage.renderResults
                     (Arr [Sample.broken Sample.unprintable])) Sample.page in
   has_own "error_message" (Sample.broken Sample.unprintable) = true /\
   length (list_items w') = 0 /\ alerts w' = []).
Proof. vm_compute. repeat split. Qed.

(** C5, as the code has it.  For an empty sequence the results page, with no
    error message left on the global object, shows the alert "No results
    found for your query." and renders no list item; the documents page
    renders no list item and shows no alert. *)
Theorem C5_empty_sequence (v : value) (w : world) :
  iterate v = Normal [] ->
  truthy (this_error_message w) = false ->
  (let w' := exec (ResultsPage.renderResults v) w in
   results_children w' = [] /\
   alerts w' = alerts w ++ ["No results found for your query."])
  /\
  (let w' := exec (DocumentsPage.renderResults v) w in
   results_children w' = [] /\ alerts w' = alerts w).
Proof.
  intros Hv Hw. split.
  - unfold ResultsPage.renderResults. run. rewrite Hv.
    cbn [ResultsPage.render_loop]. run.
    cbn [this_error_message with_results_children]. rewrite Hw.
    assert (Hlen : get v "length" = Normal (Num "0")).
    { destruct v as [| | | |s|l|]; try discriminate Hv.
      - destruct s; [reflexivity|discriminate Hv].
      - cbn in Hv. injection Hv as ->. reflexivity. }
    rewrite Hlen. cbn. done.
  - unfold DocumentsPage.renderResults. run. rewrite Hv.
    cbn [DocumentsPage.render_loop]. run. done.
Qed.

Lemma C5_witness :
  (let w' := exec (ResultsPage.renderResults (Arr [])) Sample.page in
   results_children w' = [] /\
   alerts w' = alerts Sample.page ++ ["No results found for your query."])
  /\
  (let w' := exec (DocumentsPage.renderResults (Arr [])) Sample.page in
   results_children w' = [] /\ alerts w' = alerts Sample.page).
Proof. apply (C5_empty_sequence (Arr []) Sample.page); reflexivity. Defined.

(** C5 as stated fails.  On the documents page the renderer shows no alert
    for an empty sequence.  On the results page, once an earlier call has
    left an error message on the global object, an empty sequence brings
    that message back instead of the "no results" alert. *)
Lemma C5_counterexample :
  (let w' := exec (DocumentsPage.renderResults (Arr [])) Sample.page in
   list_items w' = [] /\
   ~ "No results found for your query." ∈ alerts w')
  /\
  (let w1 := exec (ResultsPage.renderResults
                     (Arr [Sample.broken (Str "index offline")])) Sample.page in
   let w' := exec (ResultsPage.renderResults (Arr [])) w1 in
   alerts w' = alerts w1 ++ ["Error retrieving search results: index offline"] /\
   ~ "No results found for your query." ∈ alerts w').
Proof.
  vm_compute. repeat split.
  - intros H. inversion H.
  - intros H. repeat (inversion H as [|? ? ? H']; clear H; rename H' into H;
                      subst).
Qed.

(** C9, as the code has it.  The results-page renderer depends on more than
    its argument.  Take an error-free, non-empty sequence [good].  Called on
    a page whose global object has no error message, the renderer shows no
    alert.  Called with the same argument after a call that met, behind
    error-free results only, a result whose [error_message] is truthy and
    has a string form, it renders the same items but raises the alert of
    that earlier message again: nothing resets [this.error_message]. *)
Theorem C9_stale_error_message
    (pre post good : list value) (r e : value) (msg : string) (w : world) :
  truthy (this_error_message w) = false ->
  forallb error_free pre = true ->
  get r "error_message" = Normal e -> truthy e = true ->
  to_string e = Some msg ->
  good <> [] -> forallb error_free good = true ->
  let w1 := exec (ResultsPage.renderResults (Arr (pre ++ r :: post))) w in
  let direct := exec (ResultsPage.renderResults (Arr good)) w in
  let later := exec (ResultsPage.renderResults (Arr good)) w1 in
  alerts direct = alerts w /\
  alerts later = alerts w1 ++ ["Error retrieving search results: " +:+ msg] /\
  results_children later = results_children direct /\
  this_error_message later = e.
Proof.
  intros Hw Hpre Hr He Hmsg Hgood Hfree. unfold exec.
  rewrite (results_render_error pre post r e msg w Hpre Hr He Hmsg).
  rewrite (results_render_clean good w Hfree Hw).
  rewrite (results_render_stale good msg); [| done | exact He | exact Hmsg].
  destruct good as [|g good]; [done|]. cbn. done.
Qed.

Lemma C9_witness :
  let w1 := exec (ResultsPage.renderResults
                    (Arr ([] ++ Sample.broken (Str "index offline") :: [])))
                 Sample.page in
  let direct := exec (ResultsPage.renderResults (Arr [Sample.hit "1"])) Sample.page in
  let later := exec (ResultsPage.renderResults (Arr [Sample.hit "1"])) w1 in
  alerts direct = alerts Sample.page /\
  alerts later = alerts w1 ++ ["Error retrieving search results: " +:+ "index offline"] /\
  results_children later = results_children direct /\
  this_error_message later = Str "index offline".
Proof.
  apply (C9_stale_error_message [] [] [Sample.hit "1"]
           (Sample.broken (Str "index offline")) (Str "index offline")
           "index offline" Sample.page); try reflexivity.
  discriminate.
Defined.

(** C9 as stated fails: an earlier call whose input contained a result with
    an [error_message] need not change what the later call shows.  After an
    input whose message is present but empty, after one where a [null]
    entry makes the loop throw before the message is reached, and after one
    whose message has no string form, the later call on [good] shows no
    alert, just like the direct call. *)
Lemma C9_counterexample :
  let good := Arr [Sample.hit "1"] in
  let direct := exec (ResultsPage.renderResults good) Sample.page in
  let after earlier :=
    exec (ResultsPage.renderResults good)
      (exec (ResultsPage.renderResults (Arr earlier)) Sample.page) in
  alerts direct = [] /\
  (has_own "error_message" (Sample.broken (Str "")) = true /\
   alerts (after [Sample.broken (Str "")]) = []) /\
  alerts (after [Null; Sample.broken (Str "index offline")]) = [] /\
  alerts (after [Sample.broken Sample.unprintable]) = [].
Proof. vm_compute. repeat split. Qed.

(** C10, as the code has it.  The results-page renderer is not atomic on
    error.  When the first result with a truthy [error_message] is at
    position [k] and the entries before it are results without one, whatever
    the container held before the call is gone and the container holds
    exactly the [k] list items of the results before it.  The error alert
    is the last alert shown when the message has a string form; when it has
    none, no alert is shown and the renderer throws. *)
Theorem C10_results_renderer_not_atomic
    (pre post : list value) (r e : value) (w : world) :
  forallb error_free pre = true ->
  get r "error_message" = Normal e -> truthy e = true ->
  let k := length pre in
  let w' := exec (ResultsPage.renderResults (Arr (pre ++ r :: post))) w in
  results_children w' = repeat ResultsPage.resultItem k /\
  list_items w' = repeat ResultsPage.resultItem k /\
  (forall msg : string, to_string e = Some msg ->
   last (alerts w') = Some ("Error retrieving search results: " +:+ msg)) /\
  (to_string e = None ->
   alerts w' = alerts w /\
   snd (ResultsPage.renderResults (Arr (pre ++ r :: post)) w)
   = Throw TypeError).
Proof.
  intros Hpre Hr He.
  destruct (results_render_error_page pre post r e w Hpre Hr He)
    as [Hchildren _].
  cbn zeta. unfold list_items. rewrite Hchildren, repeat_resultItem_li.
  split; [reflexivity|]. split; [reflexivity|]. split.
  - intros msg Hmsg. unfold exec.
    rewrite (results_render_error pre post r e msg w Hpre Hr He Hmsg).
    cbn. by rewrite last_snoc.
  - intros Hnone. unfold exec.
    by rewrite (results_render_error_unprintable pre post r e w
                  Hpre Hr He Hnone).
Qed.

Lemma C10_witness :
  let k := length [Sample.hit "1"; Sample.hit "2"] in
  let w' := exec (ResultsPage.renderResults
                    (Arr ([Sample.hit "1"; Sample.hit "2"]
                          ++ Sample.broken (Str "index offline")
                          :: [Sample.hit "3"]))) Sample.page in
  results_children w' = repeat ResultsPage.resultItem k /\
  list_items w' = repeat ResultsPage.resultItem k /\
  last (alerts w') = Some ("Error retrieving search results: " +:+ "index offline").
Proof.
  destruct (C10_results_renderer_not_atomic
              [Sample.hit "1"; Sample.hit "2"] [Sample.hit "3"]
              (Sample.broken (Str "index offline")) (Str "index offline")
              Sample.page eq_refl eq_refl eq_refl)
    as (Hchildren & Hitems & Halert & _).
  split; [exact Hchildren|]. split; [exact Hitems|].
  exact (Halert "index offline" eq_refl).
Defined.

(** C10 as stated fails.  With a [null] entry before the first result that
    carries an error message (position 2), the loop throws at the [null]:
    one list item is left, not two, and no alert is shown.  With a message
    that is present but empty at position 0, nothing stops: both results
    are rendered and no alert is shown.  With a message that has no string
    form, the rendering stops but no alert follows. *)
Lemma C10_counterexample :
  (let w' := exec (ResultsPage.renderResults
                     (Arr [Sample.hit "1"; Null;
                           Sample.broken (Str "index offline")])) Sample.page in
   length (results_children w') = 1 /\ alerts w' = [])
  /\
  (let w' := exec (ResultsPage.renderResults
                     (Arr [Sample.broken (Str ""); Sample.hit "2"])) Sample.page in
   has_own "error_message" (Sample.broken (Str "")) = true /\
   length (results_children w') = 2 /\ alerts w' = [])
  /\
  (let w' := exec (ResultsPage.renderResults
                     (Arr [Sample.broken Sample.unprintable])) Sample.page in
   length (results_children w') = 0 /\ alerts w' = []).
Proof. vm_compute. repeat split. Qed.

(* ===================================================================== *)
(** ** The fetch-and-render controllers *)
(* ===================================================================== *)

(** A truthy [error_message] can only come from an object. *)
Lemma truthy_error_message_obj (data e : value) :
  get data "error_message" = Normal e -> truthy e = true ->
  exists props, data = Obj props /\ props !! "error_message" = Some e.
Proof.
  intros Hget He. destruct data as [| | | | | |props]; cbn in Hget;
    try discriminate Hget; try (injection Hget as <-; discriminate He).
  exists props. split; [done|].
  destruct (props !! "error_message") as [v|] eqn:Hv; cbn in Hget.
  - by injection Hget as ->.
  - injection Hget as <-. discriminate He.
Qed.

(** An array under [results] can only come from an object. *)
Lemma results_array_obj (data : value) (items : list value) :
  get data "results" = Normal (Arr items) ->
  exists props, data = Obj props /\ props !! "results" = Some (Arr items).
Proof.
  intros Hget. destruct data as [| | | | | |props]; cbn in Hget;
    try discriminate Hget.
  exists props. split; [done|].
  destruct (props !! "results") as [v|] eqn:Hv; cbn in Hget.
  - by injection Hget as ->.
  - discriminate Hget.
Qed.

(** Results page: with a truthy [error_message] in the body, the second
    [then] stores the message, alerts, and returns, whatever function
    [renderResults] names. *)
Lemma results_then_data_error (render : value -> M world unit)
    (data e : value) (msg : string) (s : ResultsPage.state) :
  get data "error_message" = Normal e -> truthy e = true ->
  to_string e = Some msg ->
  ResultsPage.then_data render data s
  = ({| ResultsPage.browser :=
          with_alerts (fun shown => shown ++ ["Error from server: " +:+ msg])
            (ResultsPage.browser s);
        ResultsPage.error_message := e;
        ResultsPage.results := ResultsPage.results s |},
     Normal tt).
Proof.
  intros Hget He Hmsg.
  destruct (truthy_error_message_obj data e Hget He) as (props & -> & Hprops).
  unfold ResultsPage.then_data, ResultsPage.set_error_message,
    ResultsPage.in_browser. run. cbn [set get].
  rewrite lookup_insert_ne by done. rewrite Hprops. cbn [from_option id].
  rewrite He. unfold concat. rewrite Hmsg. reflexivity.
Qed.

(** Documents page: the same, with nothing to store. *)
Lemma documents_then_data_error (render : value -> M world unit)
    (data e : value) (msg : string) (w : world) :
  get data "error_message" = Normal e -> truthy e = true ->
  to_string e = Some msg ->
  DocumentsPage.then_data render data w
  = (with_alerts (fun shown => shown ++ ["Error from server: " +:+ msg]) w,
     Normal tt).
Proof.
  intros Hget He Hmsg. unfold DocumentsPage.then_data. run.
  rewrite Hget, He. unfold concat. rewrite Hmsg. reflexivity.
Qed.

(** Both pages: a truthy [error_message] without a string form makes the
    second [then] throw while it builds the alert text. *)
Lemma results_then_data_unprintable (render : value -> M world unit)
    (data e : value) (s : ResultsPage.state) :
  get data "error_message" = Normal e -> truthy e = true ->
  to_string e = None ->
  ResultsPage.then_data render data s
  = ({| ResultsPage.browser := ResultsPage.browser s;
        ResultsPage.error_message := e;
        ResultsPage.results := ResultsPage.results s |},
     Throw TypeError).
Proof.
  intros Hget He Hmsg.
  destruct (truthy_error_message_obj data e Hget He) as (props & -> & Hprops).
  unfold ResultsPage.then_data, ResultsPage.set_error_message,
    ResultsPage.in_browser. run. cbn [set get].
  rewrite lookup_insert_ne by done. rewrite Hprops. cbn [from_option id].
  rewrite He. unfold concat. rewrite Hmsg. reflexivity.
Qed.

Lemma documents_then_data_unprintable (render : value -> M world unit)
    (data e : value) (w : world) :
  get data "error_message" = Normal e -> truthy e = true ->
  to_string e = None ->
  DocumentsPage.then_data render data w = (w, Throw TypeError).
Proof.
  intros Hget He Hmsg. unfold DocumentsPage.then_data. run.
  rewrite Hget, He. unfold concat. rewrite Hmsg. reflexivity.
Qed.

(** Results page: a body without a truthy [error_message] reaches the
    renderer with [undefined], because [data.results] was overwritten. *)
Lemma results_then_data_render (render : value -> M world unit)
    (props : gmap string value) (s : ResultsPage.state) :
  truthy (default Undefined (props !! "error_message")) = false ->
  ResultsPage.then_data render (Obj props) s
  = ResultsPage.in_browser (render Undefined)
      {| ResultsPage.browser := ResultsPage.browser s;
         ResultsPage.error_message := ResultsPage.error_message s;
         ResultsPage.results := Undefined |}.
Proof.
  intros He. unfold ResultsPage.then_data, ResultsPage.set_results. run.
  cbn [set get]. rewrite lookup_insert_ne by done. rewrite He.
  rewrite lookup_insert_eq. reflexivity.
Qed.

(** C3, as the code has it.  When the parsed body has a truthy
    [error_message] (a non-empty string, say), both controllers stop
    without rendering: whatever function [renderResults] is bound to, the
    results container is left as it was, so the renderer is not called (the
    results page also keeps the message in its variable [error_message]).
    When the message has a string form, it is shown in the alert "Error
    from server: ..." and nothing is logged; when it has none, no alert is
    shown and the TypeError of the failed conversion is logged. *)
Theorem C3_truthy_error_message_alerts_and_stops
    (render : value -> M world unit) (net : network) (r : response)
    (data e : value) (s : ResultsPage.state) (w : world) :
  ok r = true -> json r = Normal data ->
  get data "error_message" = Normal e -> truthy e = true ->
  net (ResultsPage.the_request (ResultsPage.browser s)) = Fulfilled r ->
  net (DocumentsPage.the_request w) = Fulfilled r ->
  let s' := exec (ResultsPage.listener_with render net) s in
  let w' := exec (DocumentsPage.listener_with render net) w in
  (results_children (ResultsPage.browser s')
   = results_children (ResultsPage.browser s) /\
   results_children w' = results_children w /\
   ResultsPage.error_message s' = e /\
   ResultsPage.results s' = ResultsPage.results s)
  /\
  (forall msg : string, to_string e = Some msg ->
   alerts (ResultsPage.browser s')
   = alerts (ResultsPage.browser s) ++ ["Error from server: " +:+ msg] /\
   console_errors (ResultsPage.browser s')
   = console_errors (ResultsPage.browser s) /\
   alerts w' = alerts w ++ ["Error from server: " +:+ msg] /\
   console_errors w' = console_errors w /\
   ResultsPage.browser s'
   = with_alerts (fun shown => shown ++ ["Error from server: " +:+ msg])
       (ResultsPage.browser s) /\
   w' = with_alerts (fun shown => shown ++ ["Error from server: " +:+ msg]) w)
  /\
  (to_string e = None ->
   alerts (ResultsPage.browser s') = alerts (ResultsPage.browser s) /\
   console_errors (ResultsPage.browser s')
   = console_errors (ResultsPage.browser s)
     ++ [("Error fetching search results:", TypeError)] /\
   alerts w' = alerts w /\
   console_errors w'
   = console_errors w ++ [("Error fetching search results:", TypeError)]).
Proof.
  intros Hok Hjson Hget He Hnet1 Hnet2 s' w'. subst s' w'.
  unfold ResultsPage.listener_with, ResultsPage.settle,
    ResultsPage.then_response, ResultsPage.catch_error, ResultsPage.in_browser,
    DocumentsPage.listener_with, DocumentsPage.settle,
    DocumentsPage.then_response, DocumentsPage.catch_error.
  run. rewrite Hnet1, Hnet2, Hok, Hjson.
  destruct (to_string e) as [msg|] eqn:Hmsg.
  - rewrite (results_then_data_error render data e msg s Hget He Hmsg).
    rewrite (documents_then_data_error render data e msg w Hget He Hmsg).
    cbn. split; [done|]. split; [|done].
    intros msg' Hmsg'. injection Hmsg' as <-. done.
  - rewrite (results_then_data_unprintable render data e s Hget He Hmsg).
    rewrite (documents_then_data_unprintable render data e w Hget He Hmsg).
    cbn. split; [done|]. split; [done|]. done.
Qed.

Lemma C3_witness :
  let net := Sample.answers true
               (Sample.body_error (Str "index offline") [Sample.hit "1"]) in
  let s' := exec (ResultsPage.listener_with ResultsPage.renderResults net)
              (ResultsPage.script_load Sample.page) in
  let w' := exec (DocumentsPage.listener_with DocumentsPage.renderResults net)
              Sample.page in
  (results_children (ResultsPage.browser s') = results_children Sample.page /\
   results_children w' = results_children Sample.page /\
   ResultsPage.error_message s' = Str "index offline" /\
   ResultsPage.results s' = Arr [])
  /\
  (alerts (ResultsPage.browser s')
   = alerts Sample.page ++ ["Error from server: " +:+ "index offline"] /\
   console_errors (ResultsPage.browser s') = console_errors Sample.page /\
   alerts w' = alerts Sample.page ++ ["Error from server: " +:+ "index offline"] /\
   console_errors w' = console_errors Sample.page).
Proof.
  intros net.
  pose (r := {| ok := true;
                json := Normal (Sample.body_error (Str "index offline")
                                  [Sample.hit "1"]) |}).
  destruct (C3_truthy_error_message_alerts_and_stops
              ResultsPage.renderResults net r
              (Sample.body_error (Str "index offline") [Sample.hit "1"])
              (Str "index offline")
              (ResultsPage.script_load Sample.page) Sample.page
              eq_refl eq_refl eq_refl eq_refl eq_refl eq_refl)
    as ((Hkept1 & _ & Hvar & Hres) & Hshown1 & _).
  destruct (C3_truthy_error_message_alerts_and_stops
              DocumentsPage.renderResults net r
              (Sample.body_error (Str "index offline") [Sample.hit "1"])
              (Str "index offline")
              (ResultsPage.script_load Sample.page) Sample.page
              eq_refl eq_refl eq_refl eq_refl eq_refl eq_refl)
    as ((_ & Hkept2 & _) & Hshown2 & _).
  destruct (Hshown1 "index offline" eq_refl) as (Ha1 & Hc1 & _).
  destruct (Hshown2 "index offline" eq_refl) as (_ & _ & Ha2 & Hc2 & _).
  split.
  - split; [exact Hkept1|]. split; [exact Hkept2|].
    split; [exact Hvar | exact Hres].
  - split; [exact Ha1|]. split; [exact Hc1|]. split; [exact Ha2 | exact Hc2].
Defined.

(** C3 as stated fails: a body whose [error_message] property is present but
    empty is rendered by the documents page, without any alert, and the
    results page shows no alert either; and a body whose message has no
    string form is shown by neither page. *)
Lemma C3_counterexample :
  (let body := Sample.body_error (Str "") [Sample.hit "1"] in
   let net := Sample.answers true body in
   has_own "error_message" body = true /\
   (let w' := exec (DocumentsPage.listener_with DocumentsPage.renderResults net)
                Sample.page in
    alerts w' = [] /\ length (list_items w') = 1) /\
   (let s' := exec (ResultsPage.DOMContentLoaded_listener net)
                (ResultsPage.script_load Sample.page) in
    alerts (ResultsPage.browser s') = []))
  /\
  (let body := Sample.body_error Sample.unprintable [Sample.hit "1"] in
   let net := Sample.answers true body in
   has_own "error_message" body = true /\
   alerts (exec (DocumentsPage.listener_with DocumentsPage.renderResults net)
             Sample.page) = [] /\
   alerts (ResultsPage.browser
             (exec (ResultsPage.DOMContentLoaded_listener net)
                (ResultsPage.script_load Sample.page))) = []).
Proof. vm_compute. repeat split. Qed.

(** C6.  When the response is not OK, both controllers throw the generic
    error "Network response was not ok", which the [catch] handler logs to
    the console, as the one new console entry: no alert is raised and the
    results container is left as it was; nothing else changes either. *)
Theorem C6_not_ok_logged_not_shown
    (net : network) (r : response) (s : ResultsPage.state) (w : world)
    (ev : event) :
  ok r = false ->
  net (ResultsPage.the_request (ResultsPage.browser s)) = Fulfilled r ->
  net (DocumentsPage.the_request w) = Fulfilled r ->
  let logged := fun l : list (string * exn) =>
    l ++ [("Error fetching search results:",
           Error "Network response was not ok")] in
  let s' := exec (ResultsPage.DOMContentLoaded_listener net) s in
  let w' := snd (DocumentsPage.submit_listener net ev w) in
  (s' = {| ResultsPage.browser := with_console_errors logged (ResultsPage.browser s);
           ResultsPage.error_message := ResultsPage.error_message s;
           ResultsPage.results := ResultsPage.results s |} /\
   console_errors (ResultsPage.browser s')
   = console_errors (ResultsPage.browser s)
     ++ [("Error fetching search results:",
          Error "Network response was not ok")] /\
   alerts (ResultsPage.browser s') = alerts (ResultsPage.browser s) /\
   results_children (ResultsPage.browser s')
   = results_children (ResultsPage.browser s))
  /\
  (w' = with_console_errors logged w /\
   console_errors w'
   = console_errors w
     ++ [("Error fetching search results:",
          Error "Network response was not ok")] /\
   alerts w' = alerts w /\
   results_children w' = results_children w).
Proof.
  intros Hok Hnet1 Hnet2 logged s' w'. subst s' w'.
  unfold DocumentsPage.submit_listener.
  unfold ResultsPage.DOMContentLoaded_listener, ResultsPage.listener_with,
    ResultsPage.settle, ResultsPage.then_response, ResultsPage.catch_error,
    ResultsPage.in_browser,
    DocumentsPage.listener_with, DocumentsPage.settle,
    DocumentsPage.then_response, DocumentsPage.catch_error.
  run. rewrite Hnet1, Hnet2, Hok. cbn. done.
Qed.

Lemma C6_witness :
  let net := Sample.answers false (Sample.body_results [Sample.hit "1"]) in
  let s' := exec (ResultsPage.DOMContentLoaded_listener net)
              (ResultsPage.script_load Sample.page) in
  let w' := snd (DocumentsPage.submit_listener net Sample.submit_event
                   Sample.page) in
  (console_errors (ResultsPage.browser s')
   = [("Error fetching search results:", Error "Network response was not ok")] /\
   alerts (ResultsPage.browser s') = [] /\
   results_children (ResultsPage.browser s') = results_children Sample.page)
  /\
  (console_errors w'
   = [("Error fetching search results:", Error "Network response was not ok")] /\
   alerts w' = [] /\
   results_children w' = results_children Sample.page).
Proof.
  intros net.
  destruct (C6_not_ok_logged_not_shown net
              {| ok := false;
                 json := Normal (Sample.body_results [Sample.hit "1"]) |}
              (ResultsPage.script_load Sample.page) Sample.page
              Sample.submit_event eq_refl eq_refl eq_refl)
    as ((_ & Hc1 & Ha1 & Hr1) & (_ & Hc2 & Ha2 & Hr2)).
  split.
  - split; [exact Hc1|]. split; [exact Ha1 | exact Hr1].
  - split; [exact Hc2|]. split; [exact Ha2 | exact Hr2].
Defined.

(** Results page, an OK response whose body has no [error_message] and an
    array under [results]: the array never reaches the renderer. *)
Lemma results_page_drops_results
    (net : network) (r : response) (data : value) (items : list value)
    (s : ResultsPage.state) :
  ok r = true -> json r = Normal data ->
  has_own "error_message" data = false ->
  get data "results" = Normal (Arr items) ->
  net (ResultsPage.the_request (ResultsPage.browser s)) = Fulfilled r ->
  let s' := exec (ResultsPage.DOMContentLoaded_listener net) s in
  results_children (ResultsPage.browser s') = [] /\
  list_items (ResultsPage.browser s') = [] /\
  ResultsPage.results s' = Undefined /\
  alerts (ResultsPage.browser s') = alerts (ResultsPage.browser s) /\
  console_errors (ResultsPage.browser s')
  = console_errors (ResultsPage.browser s)
    ++ [("Error fetching search results:", TypeError)].
Proof.
  intros Hok Hjson Hown Hres Hnet.
  destruct (results_array_obj data items Hres) as (props & -> & Hprops).
  assert (He : truthy (default Undefined (props !! "error_message")) = false).
  { cbn in Hown. destruct (props !! "error_message") as [v|] eqn:Hv; [|done].
    rewrite bool_decide_eq_false in Hown. destruct Hown. by exists v. }
  unfold ResultsPage.DOMContentLoaded_listener, ResultsPage.listener_with,
    ResultsPage.settle, ResultsPage.then_response. run.
  rewrite Hnet, Hok, Hjson.
  rewrite (results_then_data_render _ props s He).
  cbn. done.
Qed.

(** C1, what the results page does.  For an OK response whose body has no
    [error_message] and an array of any length under [results], the second
    [then] first overwrites [data.results] with [undefined]; the renderer is
    then called with [undefined], empties the container and throws on the
    loop.  No list item is rendered, no alert is shown, a TypeError is
    logged. *)
Theorem C1_results_page_renders_no_item
    (net : network) (r : response) (data : value) (items : list value)
    (s : ResultsPage.state) :
  ok r = true -> json r = Normal data ->
  has_own "error_message" data = false ->
  get data "results" = Normal (Arr items) ->
  net (ResultsPage.the_request (ResultsPage.browser s)) = Fulfilled r ->
  let s' := exec (ResultsPage.DOMContentLoaded_listener net) s in
  results_children (ResultsPage.browser s') = [] /\
  length (list_items (ResultsPage.browser s')) = 0 /\
  ResultsPage.results s' = Undefined /\
  alerts (ResultsPage.browser s') = alerts (ResultsPage.browser s) /\
  console_errors (ResultsPage.browser s')
  = console_errors (ResultsPage.browser s)
    ++ [("Error fetching search results:", TypeError)].
Proof.
  intros Hok Hjson Hown Hres Hnet s'.
  destruct (results_page_drops_results net r data items s
              Hok Hjson Hown Hres Hnet) as (H1 & H2 & H3 & H4 & H5).
  subst s'. rewrite H2. done.
Qed.

Lemma C1_witness :
  let net := Sample.answers true
               (Sample.body_results [Sample.hit "1"; Sample.hit "2"]) in
  let s' := exec (ResultsPage.DOMContentLoaded_listener net)
              (ResultsPage.script_load Sample.page) in
  results_children (ResultsPage.browser s') = [] /\
  length (list_items (ResultsPage.browser s')) = 0 /\
  ResultsPage.results s' = Undefined /\
  alerts (ResultsPage.browser s') = alerts Sample.page /\
  console_errors (ResultsPage.browser s')
  = console_errors Sample.page
    ++ [("Error fetching search results:", TypeError)].
Proof.
  intros net.
  apply (C1_results_page_renders_no_item net
           {| ok := true;
              json := Normal (Sample.body_results
                                [Sample.hit "1"; Sample.hit "2"]) |}
           (Sample.body_results [Sample.hit "1"; Sample.hit "2"])
           [Sample.hit "1"; Sample.hit "2"]
           (ResultsPage.script_load Sample.page)); reflexivity.
Defined.

(** The documents page does what C1 says: for the same responses, with
    results it can render, it shows one list item per result, in order,
    and no alert. *)
Lemma documents_page_renders_all
    (net : network) (r : response) (data : value) (items : list value)
    (w : world) :
  ok r = true -> json r = Normal data ->
  has_own "error_message" data = false ->
  get data "results" = Normal (Arr items) ->
  forallb renderable items = true ->
  net (DocumentsPage.the_request w) = Fulfilled r ->
  let w' := exec (DocumentsPage.listener_with DocumentsPage.renderResults net) w in
  list_items w' = map document_item items /\
  length (list_items w') = length items /\
  alerts w' = alerts w /\ console_errors w' = console_errors w.
Proof.
  intros Hok Hjson Hown Hres Hall Hnet.
  destruct (results_array_obj data items Hres) as (props & -> & Hprops).
  assert (He : props !! "error_message" = None).
  { cbn in Hown. destruct (props !! "error_message") as [v|] eqn:Hv; [|done].
    rewrite bool_decide_eq_false in Hown. destruct Hown. by exists v. }
  unfold DocumentsPage.listener_with, DocumentsPage.settle,
    DocumentsPage.then_response, DocumentsPage.then_data. run.
  rewrite Hnet, Hok, Hjson. cbn [get]. rewrite He, Hprops.
  cbn [from_option id truthy].
  rewrite (documents_render_all items w Hall).
  cbn. unfold list_items. cbn.
  by rewrite document_items_li, length_map.
Qed.

(** Building an item changes nothing on the page. *)
Lemma build_item_world (x : value) (w : world) :
  fst (DocumentsPage.build_item x w) = w.
Proof.
  destruct (renderable x) eqn:Hx.
  - by rewrite (build_item_renderable x w Hx).
  - by rewrite (build_item_throws x w Hx).
Qed.

(** The documents-page loop never shows an alert, also when it throws on a
    result half way. *)
Lemma documents_loop_alerts (items : list value) (w : world) :
  alerts (fst (DocumentsPage.render_loop items w)) = alerts w.
Proof.
  revert w. induction items as [|x items IH]; intros w; [reflexivity|].
  cbn [DocumentsPage.render_loop]. unfold bind at 1.
  pose proof (build_item_world x w) as Hw.
  destruct (DocumentsPage.build_item x w) as [w1 [item|e]]; cbn in Hw; subst w1.
  - run. by rewrite IH.
  - reflexivity.
Qed.

Lemma documents_render_alerts (v : value) (w : world) :
  alerts (fst (DocumentsPage.renderResults v w)) = alerts w.
Proof.
  unfold DocumentsPage.renderResults. run.
  destruct (iterate v) as [items|e]; [|reflexivity].
  by rewrite documents_loop_alerts.
Qed.

(** Whatever [fetch] settles to, the two controllers show the same alerts.
    (The alerts of the results-page renderer are out of reach of its
    controller, which always hands it [undefined].) *)
Lemma controllers_show_same_alerts
    (o : fetch_outcome) (s : ResultsPage.state) (w : world) :
  exists shown : list string,
    alerts (ResultsPage.browser
              (exec (ResultsPage.settle ResultsPage.renderResults o) s))
    = alerts (ResultsPage.browser s) ++ shown /\
    alerts (exec (DocumentsPage.settle DocumentsPage.renderResults o) w)
    = alerts w ++ shown.
Proof.
  unfold ResultsPage.settle, DocumentsPage.settle,
    ResultsPage.then_response, DocumentsPage.then_response,
    ResultsPage.catch_error, DocumentsPage.catch_error,
    ResultsPage.in_browser.
  destruct o as [[[] [data|e]]|e]; cbn [ok json];
    try (exists []; run; cbn; by rewrite !app_nil_r).
  destruct (truthy (prop data "error_message")) eqn:He.
  - (* a truthy message: the same alert, or the same failed conversion *)
    assert (Hget : get data "error_message" = Normal (prop data "error_message")).
    { unfold prop in *. by destruct (get data "error_message"). }
    destruct (to_string (prop data "error_message")) as [msg|] eqn:Hmsg.
    + exists ["Error from server: " +:+ msg]. run.
      rewrite (results_then_data_error _ data _ msg s Hget He Hmsg).
      rewrite (documents_then_data_error _ data _ msg w Hget He Hmsg).
      done.
    + exists []. rewrite !app_nil_r.
      destruct (truthy_error_message_obj data _ Hget He) as (props & -> & Hprops).
      unfold ResultsPage.then_data, DocumentsPage.then_data,
        ResultsPage.set_error_message, ResultsPage.in_browser. run.
      cbn [set get]. rewrite lookup_insert_ne by done.
      rewrite Hprops. cbn [from_option id].
      unfold prop in He, Hmsg. cbn [get] in He, Hmsg.
      rewrite Hprops in He, Hmsg. cbn [from_option id] in He, Hmsg.
      rewrite He. unfold concat. rewrite Hmsg. cbn. done.
  - (* no message: the results page renders [undefined], the documents page
       renders [data.results] *)
    exists []. rewrite !app_nil_r. split.
    + destruct data as [| | | | | |props];
        try (unfold ResultsPage.then_data, ResultsPage.set_results,
               ResultsPage.in_browser; run; cbn; done).
      run. rewrite (results_then_data_render _ props s).
      * cbn. done.
      * exact He.
    + unfold DocumentsPage.then_data. run.
      unfold prop in He.
      destruct (get data "error_message") as [e|] eqn:Hget; [|reflexivity].
      rewrite He.
      destruct (get data "results") as [res|]; [|reflexivity].
      pose proof (documents_render_alerts res w) as Hren.
      destruct (DocumentsPage.renderResults res w) as [w1 [[]|e1]];
        cbn in Hren |- *; done.
Qed.

(** C2, where the two controllers part.  For an OK response without
    [error_message] and with a non-empty array of results that the
    documents page can render, the documents page shows one list item per
    result and the results page shows none, although both raise the same
    alerts (here: none). *)
Theorem C2_controllers_differ_on_results
    (net : network) (r : response) (data : value) (items : list value)
    (s : ResultsPage.state) (w : world) (ev : event) :
  ok r = true -> json r = Normal data ->
  has_own "error_message" data = false ->
  get data "results" = Normal (Arr items) ->
  items <> [] -> forallb renderable items = true ->
  net (ResultsPage.the_request (ResultsPage.browser s)) = Fulfilled r ->
  net (DocumentsPage.the_request w) = Fulfilled r ->
  let s' := exec (ResultsPage.DOMContentLoaded_listener net) s in
  let w' := snd (DocumentsPage.submit_listener net ev w) in
  length (list_items w') = length items /\
  length (list_items (ResultsPage.browser s')) = 0 /\
  length (list_items w') <> length (list_items (ResultsPage.browser s')) /\
  alerts w' = alerts w /\
  alerts (ResultsPage.browser s') = alerts (ResultsPage.browser s).
Proof.
  intros Hok Hjson Hown Hres Hne Hall Hnet1 Hnet2 s' w'.
  destruct (results_page_drops_results net r data items s
              Hok Hjson Hown Hres Hnet1) as (_ & Hnone & _ & Halerts & _).
  destruct (documents_page_renders_all net r data items w
              Hok Hjson Hown Hres Hall Hnet2) as (_ & Hlen & Halerts' & _).
  subst s' w'. unfold DocumentsPage.submit_listener. cbn [snd].
  rewrite Hnone, Hlen. cbn [length].
  repeat split; try done. by destruct items.
Qed.

Lemma C2_witness :
  let net := Sample.answers true (Sample.body_results [Sample.hit "1"]) in
  let s' := exec (ResultsPage.DOMContentLoaded_listener net)
              (ResultsPage.script_load Sample.page) in
  let w' := snd (DocumentsPage.submit_listener net Sample.submit_event
                   Sample.page) in
  length (list_items w') = length [Sample.hit "1"] /\
  length (list_items (ResultsPage.browser s')) = 0 /\
  length (list_items w') <> length (list_items (ResultsPage.browser s')) /\
  alerts w' = alerts Sample.page /\
  alerts (ResultsPage.browser s') = alerts Sample.page.
Proof.
  intros net.
  apply (C2_controllers_differ_on_results net
           {| ok := true;
              json := Normal (Sample.body_results [Sample.hit "1"]) |}
           (Sample.body_results [Sample.hit "1"]) [Sample.hit "1"]
           (ResultsPage.script_load Sample.page) Sample.page
           Sample.submit_event); try reflexivity.
  discriminate.
Defined.

(* ===================================================================== *)
(** ** The index page and the night theme *)
(* ===================================================================== *)

(** C7.  On a [keyup] event whose key is "Enter" the listener cancels the
    default action and submits the form once; on any other event it does
    nothing. *)
Theorem C7_enter_submits_once (ev : event) (p : IndexPage.page) :
  (key ev = Some "Enter" ->
   IndexPage.keyup_listener ev p = (preventDefault ev, IndexPage.submit p) /\
   defaultPrevented (fst (IndexPage.keyup_listener ev p)) = true /\
   IndexPage.form_submissions (snd (IndexPage.keyup_listener ev p))
   = S (IndexPage.form_submissions p))
  /\
  (key ev <> Some "Enter" -> IndexPage.keyup_listener ev p = (ev, p)).
Proof.
  unfold IndexPage.keyup_listener. split; intros Hkey.
  - by rewrite bool_decide_eq_true_2.
  - by rewrite bool_decide_eq_false_2.
Qed.

Lemma C7_witness :
  (IndexPage.keyup_listener (Sample.keyup "Enter") {| IndexPage.form_submissions := 0 |}
   = (preventDefault (Sample.keyup "Enter"),
      IndexPage.submit {| IndexPage.form_submissions := 0 |}) /\
   defaultPrevented
     (fst (IndexPage.keyup_listener (Sample.keyup "Enter")
             {| IndexPage.form_submissions := 0 |})) = true /\
   IndexPage.form_submissions
     (snd (IndexPage.keyup_listener (Sample.keyup "Enter")
             {| IndexPage.form_submissions := 0 |})) = 1)
  /\
  IndexPage.keyup_listener (Sample.keyup "a") {| IndexPage.form_submissions := 0 |}
  = (Sample.keyup "a", {| IndexPage.form_submissions := 0 |}).
Proof.
  split.
  - apply (C7_enter_submits_once (Sample.keyup "Enter")
             {| IndexPage.form_submissions := 0 |}). reflexivity.
  - apply (C7_enter_submits_once (Sample.keyup "a")
             {| IndexPage.form_submissions := 0 |}). discriminate.
Defined.

(** C8.  When the script of the documents page is loaded, the class
    [night-theme] is added to the document root if the string stored under
    [nightTheme] is "true"; for any other stored string, or none, the page
    is left exactly as it was.  So on a root that does not carry the class
    yet, the class is there afterwards if and only if the stored string is
    "true". *)
Theorem C8_night_theme (w : world) :
  (getItem "nightTheme" w = Some "true" ->
   DocumentsPage.script_load w = root_classList_add "night-theme" w /\
   "night-theme" ∈ root_classes (DocumentsPage.script_load w))
  /\
  (getItem "nightTheme" w <> Some "true" -> DocumentsPage.script_load w = w)
  /\
  ("night-theme" ∉ root_classes w ->
   "night-theme" ∈ root_classes (DocumentsPage.script_load w)
   <-> getItem "nightTheme" w = Some "true").
Proof.
  assert (Hadd : forall l : list string, "night-theme" ∈ classList_add "night-theme" l).
  { intros l. unfold classList_add. case_bool_decide as Hin; [done|].
    apply elem_of_app. right. by apply list_elem_of_singleton. }
  unfold DocumentsPage.script_load, DocumentsPage.nightThemeEnabled.
  split; [|split].
  - intros Hstored. rewrite bool_decide_eq_true_2 by done.
    split; [done|]. apply Hadd.
  - intros Hstored. by rewrite bool_decide_eq_false_2.
  - intros Hfresh. case_bool_decide as Hstored.
    + split; [done|]. intros _. apply Hadd.
    + split; [by intros Hin | by intros Hyes].
Qed.

Lemma C8_witness :
  (DocumentsPage.script_load (fresh "" "" Sample.night [])
   = root_classList_add "night-theme" (fresh "" "" Sample.night []) /\
   root_classes (DocumentsPage.script_load (fresh "" "" Sample.night []))
   = ["night-theme"])
  /\
  DocumentsPage.script_load (fresh "" "" Sample.day []) = fresh "" "" Sample.day []
  /\
  DocumentsPage.script_load (fresh "" "" ∅ []) = fresh "" "" ∅ [].
Proof.
  split; [split|split].
  - apply (C8_night_theme (fresh "" "" Sample.night [])). reflexivity.
  - reflexivity.
  - apply (C8_night_theme (fresh "" "" Sample.day [])). discriminate.
  - apply (C8_night_theme (fresh "" "" ∅ [])). discriminate.
Defined.

(* ===================================================================== *)
(** ** More on the renderers *)
(* ===================================================================== *)

Lemma with_this_error_message_id (w : world) :
  with_this_error_message (this_error_message w) w = w.
Proof. by destruct w. Qed.

(** Whatever the results and wherever it stops or throws, the loop of the
    documents page only appends to the container. *)
Lemma documents_loop_frame (items : list value) (w : world) :
  exists l, fst (DocumentsPage.render_loop items w)
            = with_results_children (fun c => c ++ l) w.
Proof.
  revert w. induction items as [|x items IH]; intros w.
  - exists []. cbn. by rewrite with_results_children_nil.
  - cbn [DocumentsPage.render_loop]. unfold bind at 1.
    pose proof (build_item_world x w) as Hw.
    destruct (DocumentsPage.build_item x w) as [w1 [item|e]]; cbn in Hw; subst w1.
    + run. destruct (IH (with_results_children (fun c => c ++ [item]) w))
        as [l Hl].
      exists ([item] ++ l). rewrite <- with_results_children_app.
      rewrite <- Hl.
      by destruct (DocumentsPage.render_loop items _) as [w2 [[]|e]].
    + exists []. cbn. by rewrite with_results_children_nil.
Qed.

Lemma documents_render_frame (v : value) (w : world) :
  exists l, fst (DocumentsPage.renderResults v w)
            = with_results_children (fun _ => l) w.
Proof.
  unfold DocumentsPage.renderResults. run.
  destruct (iterate v) as [items|e]; [|by exists []].
  destruct (documents_loop_frame items (with_results_children (fun _ => []) w))
    as [l Hl].
  exists l. rewrite <- (with_results_children_clear l w). rewrite <- Hl.
  by destruct (DocumentsPage.render_loop items _) as [w2 [[]|e]].
Qed.

(** The loop of the results page appends to the container and may store a
    truthy message on the global object; it does nothing else. *)
Lemma results_loop_frame (items : list value) (w : world) :
  exists l e,
    fst (ResultsPage.render_loop items w)
    = with_this_error_message e (with_results_children (fun c => c ++ l) w) /\
    (e = this_error_message w \/ truthy e = true).
Proof.
  revert w. induction items as [|x items IH]; intros w.
  - exists [], (this_error_message w). cbn.
    rewrite with_results_children_nil, with_this_error_message_id. auto.
  - cbn [ResultsPage.render_loop]. run.
    destruct (get x "error_message") as [e|t].
    + destruct (truthy e) eqn:He.
      * exists [], e. cbn. rewrite with_results_children_nil. auto.
      * destruct (IH (with_results_children
                        (fun c => c ++ [ResultsPage.resultItem]) w))
          as (l & e' & Hl & He').
        exists ([ResultsPage.resultItem] ++ l), e'.
        rewrite <- with_results_children_app. split; [|exact He'].
        rewrite <- Hl.
        by destruct (ResultsPage.render_loop items _) as [w2 [[]|e2]].
    + exists [], (this_error_message w). cbn.
      rewrite with_results_children_nil, with_this_error_message_id. auto.
Qed.

(** A non-iterable argument: both renderers empty the container and throw. *)
Lemma results_render_not_iterable (v : value) (t : exn) (w : world) :
  iterate v = Throw t ->
  ResultsPage.renderResults v w
  = (with_results_children (fun _ => []) w, Throw t).
Proof. intros Hv. unfold ResultsPage.renderResults. run. by rewrite Hv. Qed.

Lemma documents_render_not_iterable (v : value) (t : exn) (w : world) :
  iterate v = Throw t ->
  DocumentsPage.renderResults v w
  = (with_results_children (fun _ => []) w, Throw t).
Proof. intros Hv. unfold DocumentsPage.renderResults. run. by rewrite Hv. Qed.

(** The documents page stops at the first result it cannot render. *)
Lemma documents_render_stops (pre post : list value) (x : value) (w : world) :
  forallb renderable pre = true -> renderable x = false ->
  DocumentsPage.renderResults (Arr (pre ++ x :: post)) w
  = (with_results_children (fun _ => map document_item pre) w,
     Throw TypeError).
Proof.
  intros Hpre Hx. unfold DocumentsPage.renderResults, iterate. run.
  assert (Hloop : forall w0,
    DocumentsPage.render_loop (pre ++ x :: post) w0
    = (with_results_children (fun c => c ++ map document_item pre) w0,
       Throw TypeError)).
  { clear w. induction pre as [|y pre IH]; intros w0.
    - cbn [app map DocumentsPage.render_loop].
      rewrite with_results_children_nil.
      unfold bind at 1. by rewrite (build_item_throws x w0 Hx).
    - cbn [forallb] in Hpre. apply andb_prop in Hpre as [Hy Hpre].
      cbn [app map DocumentsPage.render_loop]. unfold bind at 1.
      rewrite (build_item_renderable y w0 Hy). run.
      rewrite (IH Hpre). by rewrite with_results_children_app. }
  by rewrite Hloop.
Qed.

(** X1.  Neither renderer looks at what the container held: the outcome of a
    call is the same on a page that differs only in the children of
    [#results].  So on the documents page, of two calls in a row, only the
    second one shows. *)
Theorem X1_prior_results_never_matter
    (v v' : value) (f : list node -> list node) (w : world) :
  ResultsPage.renderResults v (with_results_children f w)
  = ResultsPage.renderResults v w /\
  DocumentsPage.renderResults v (with_results_children f w)
  = DocumentsPage.renderResults v w /\
  DocumentsPage.renderResults v (exec (DocumentsPage.renderResults v') w)
  = DocumentsPage.renderResults v w.
Proof.
  assert (Hdoc : forall g, DocumentsPage.renderResults v (with_results_children g w)
                           = DocumentsPage.renderResults v w).
  { intros g. unfold DocumentsPage.renderResults. by run. }
  split; [|split].
  - unfold ResultsPage.renderResults. by run.
  - apply Hdoc.
  - unfold exec. destruct (documents_render_frame v' w) as [l ->]. apply Hdoc.
Qed.

(** X2.  The renderer of the documents page changes the children of
    [#results] and nothing else, whatever it is given and also when it
    throws: it shows no alert, logs nothing, and leaves the global object
    alone. *)
Theorem X2_documents_renderer_frame (v : value) (w : world) :
  let w' := exec (DocumentsPage.renderResults v) w in
  w' = with_results_children (fun _ => results_children w') w /\
  alerts w' = alerts w /\
  console_errors w' = console_errors w /\
  this_error_message w' = this_error_message w.
Proof.
  unfold exec. destruct (documents_render_frame v w) as [l ->]. done.
Qed.

(** X3.  Once a truthy message sits on the global object, no call of the
    results-page renderer removes it, whatever the argument and however the
    call ends. *)
Theorem X3_error_flag_is_sticky (v : value) (w : world) :
  truthy (this_error_message w) = true ->
  truthy (this_error_message (exec (ResultsPage.renderResults v) w)) = true.
Proof.
  intros Hw. unfold ResultsPage.renderResults. run.
  destruct (iterate v) as [items|t]; [|exact Hw].
  destruct (results_loop_frame items (with_results_children (fun _ => []) w))
    as (l & e & Hl & He).
  assert (Hflag : truthy (this_error_message
                            (fst (ResultsPage.render_loop items
                                    (with_results_children (fun _ => []) w))))
                  = true).
  { rewrite Hl. cbn. destruct He as [-> | He]; [exact Hw | exact He]. }
  destruct (ResultsPage.render_loop items _) as [w2 [[]|t]]; cbn in Hflag |- *;
    [|exact Hflag].
  rewrite Hflag. unfold concat.
  destruct (to_string (this_error_message w2)); exact Hflag.
Qed.

Lemma X3_witness :
  truthy (this_error_message
            (exec (ResultsPage.renderResults (Arr [Sample.hit "1"]))
               (with_this_error_message (Str "index offline") Sample.page)))
  = true.
Proof.
  apply (X3_error_flag_is_sticky (Arr [Sample.hit "1"])
           (with_this_error_message (Str "index offline") Sample.page)).
  reflexivity.
Defined.

(** X4.  Called on a page whose global object holds no truthy message, with
    a non-empty sequence of results none of which has a truthy
    [error_message], the results-page renderer replaces the children of
    [#results] by one empty list item per result and does nothing else: no
    alert, no message stored. *)
Theorem X4_results_renderer_clean_run (items : list value) (w : world) :
  items <> [] -> forallb error_free items = true ->
  truthy (this_error_message w) = false ->
  ResultsPage.renderResults (Arr items) w
  = (with_results_children
       (fun _ => repeat ResultsPage.resultItem (length items)) w,
     Normal tt).
Proof.
  intros Hne Hall Hw. rewrite (results_render_clean items w Hall Hw).
  by destruct items.
Qed.

Lemma X4_witness :
  ResultsPage.renderResults (Arr [Sample.hit "1"; Sample.hit "2"]) Sample.page
  = (with_results_children
       (fun _ => repeat ResultsPage.resultItem
                   (length [Sample.hit "1"; Sample.hit "2"])) Sample.page,
     Normal tt).
Proof.
  apply (X4_results_renderer_clean_run [Sample.hit "1"; Sample.hit "2"]
           Sample.page); [discriminate | reflexivity | reflexivity].
Defined.

(** X5.  Given something that cannot be iterated ([undefined], [null], a
    number, a boolean, an object), the results-page renderer empties the
    container and throws before it reaches its alerts: nothing is shown,
    not even a message left on the global object by an earlier call. *)
Theorem X5_results_renderer_not_iterable (v : value) (w : world) :
  match v with Arr _ | Str _ => False | _ => True end ->
  ResultsPage.renderResults v w
  = (with_results_children (fun _ => []) w, Throw TypeError).
Proof.
  intros Hv. apply results_render_not_iterable. by destruct v.
Qed.

Lemma X5_witness :
  ResultsPage.renderResults Undefined
    (with_this_error_message (Str "index offline") Sample.page)
  = (with_results_children (fun _ => [])
       (with_this_error_message (Str "index offline") Sample.page),
     Throw TypeError).
Proof.
  apply (X5_results_renderer_not_iterable Undefined
           (with_this_error_message (Str "index offline") Sample.page)).
  exact I.
Defined.

(* ===================================================================== *)
(** ** More on the controllers *)
(* ===================================================================== *)

(** Documents page: a body whose [error_message] is not truthy goes to the
    renderer with whatever sits under [results]. *)
Lemma documents_then_data_render (render : value -> M world unit)
    (data e res : value) (w : world) :
  get data "error_message" = Normal e -> truthy e = false ->
  get data "results" = Normal res ->
  DocumentsPage.then_data render data w = render res w.
Proof.
  intros Hget He Hres. unfold DocumentsPage.then_data. run.
  by rewrite Hget, He, Hres.
Qed.

(** Reading [results] works wherever reading [error_message] did. *)
Lemma get_results_total (data e : value) :
  get data "error_message" = Normal e ->
  exists res, get data "results" = Normal res.
Proof. destruct data; try done; by eexists. Qed.

(** The ways a run of the results-page chain can end: an exception was
    logged (with the message of the body stored or not), or the message of
    the body was shown, or the renderer was reached, with [undefined]. *)
Lemma results_settle_cases (o : fetch_outcome) (s : ResultsPage.state) :
  let label := "Error fetching search results:" in
  let s' := exec (ResultsPage.settle ResultsPage.renderResults o) s in
  (exists t e,
     s' = {| ResultsPage.browser :=
               with_console_errors (fun l => l ++ [(label, t)])
                 (ResultsPage.browser s);
             ResultsPage.error_message := e;
             ResultsPage.results := ResultsPage.results s |}) \/
  (exists msg e,
     s' = {| ResultsPage.browser :=
               with_alerts (fun l => l ++ [msg]) (ResultsPage.browser s);
             ResultsPage.error_message := e;
             ResultsPage.results := ResultsPage.results s |}) \/
  s' = {| ResultsPage.browser :=
            with_console_errors (fun l => l ++ [(label, TypeError)])
              (with_results_children (fun _ => []) (ResultsPage.browser s));
          ResultsPage.error_message := ResultsPage.error_message s;
          ResultsPage.results := Undefined |}.
Proof.
  intros label s'. subst label s'.
  unfold ResultsPage.settle, ResultsPage.then_response,
    ResultsPage.catch_error, ResultsPage.in_browser.
  destruct o as [[[] [data|t]]|t]; cbn [ok json];
    try (left; eexists _, _; run; cbn; reflexivity).
  destruct (truthy (prop data "error_message")) eqn:He.
  - assert (Hget : get data "error_message" = Normal (prop data "error_message")).
    { unfold prop in *. by destruct (get data "error_message"). }
    destruct (to_string (prop data "error_message")) as [msg|] eqn:Hmsg.
    + right; left. eexists _, _. run.
      rewrite (results_then_data_error _ data _ msg s Hget He Hmsg).
      reflexivity.
    + left. exists TypeError, (prop data "error_message").
      destruct (truthy_error_message_obj data _ Hget He) as (props & -> & Hprops).
      unfold ResultsPage.then_data, ResultsPage.set_error_message,
        ResultsPage.in_browser. run.
      cbn [set get]. rewrite lookup_insert_ne by done.
      rewrite Hprops. cbn [from_option id].
      unfold prop in He, Hmsg |- *. cbn [get] in He, Hmsg |- *.
      rewrite Hprops in He, Hmsg |- *. cbn [from_option id] in He, Hmsg |- *.
      rewrite He. unfold concat. rewrite Hmsg. reflexivity.
  - destruct data as [| | | | | |props];
      try (left; eexists _, _; run; cbn; reflexivity);
      try (right; right; unfold ResultsPage.then_data, ResultsPage.set_results,
             ResultsPage.in_browser; run; cbn; reflexivity).
    right; right. run. rewrite (results_then_data_render _ props s He).
    reflexivity.
Qed.

(** The ways a run of the documents-page chain can end: an exception was
    logged before the renderer was reached, or the message of the body was
    shown, or the renderer ran, to the end or until it threw. *)
Lemma documents_settle_cases (o : fetch_outcome) (w : world) :
  let label := "Error fetching search results:" in
  let w' := exec (DocumentsPage.settle DocumentsPage.renderResults o) w in
  (exists t, w' = with_console_errors (fun l => l ++ [(label, t)]) w) \/
  (exists msg, w' = with_alerts (fun l => l ++ [msg]) w) \/
  (exists items, w' = with_results_children (fun _ => items) w) \/
  (exists items t,
     w' = with_console_errors (fun l => l ++ [(label, t)])
            (with_results_children (fun _ => items) w)).
Proof.
  intros label w'. subst label w'.
  unfold DocumentsPage.settle, DocumentsPage.then_response,
    DocumentsPage.catch_error.
  destruct o as [[[] [data|t]]|t]; cbn [ok json];
    try (left; eexists; run; cbn; reflexivity).
  destruct (get data "error_message") as [e|t] eqn:Hget.
  - destruct (truthy e) eqn:He.
    + destruct (to_string e) as [msg|] eqn:Hmsg.
      * right; left. eexists. run.
        by rewrite (documents_then_data_error _ data e msg w Hget He Hmsg).
      * left. exists TypeError. unfold DocumentsPage.then_data. run.
        rewrite Hget, He. unfold concat. by rewrite Hmsg.
    + destruct (get_results_total data e Hget) as [res Hres].
      run. rewrite (documents_then_data_render _ data e res w Hget He Hres).
      pose proof (documents_render_frame res w) as [items Hitems].
      destruct (DocumentsPage.renderResults res w) as [w1 [[]|t]];
        cbn in Hitems |- *; subst w1.
      * right; right; left. by exists items.
      * right; right; right. by exists items, t.
  - left. exists t. unfold DocumentsPage.then_data. run. by rewrite Hget.
Qed.

(** X6.  The results page never renders a search result.  Whatever the
    network answers, after the listener the container is as it was or
    empty, and the variable [results] is as it was or [undefined]; the
    listener also never touches the message on the global object. *)
Theorem X6_results_page_never_renders
    (net : network) (s : ResultsPage.state) :
  let s' := exec (ResultsPage.DOMContentLoaded_listener net) s in
  (results_children (ResultsPage.browser s')
   = results_children (ResultsPage.browser s) \/
   results_children (ResultsPage.browser s') = []) /\
  (ResultsPage.results s' = ResultsPage.results s \/
   ResultsPage.results s' = Undefined) /\
  length (list_items (ResultsPage.browser s'))
  <= length (list_items (ResultsPage.browser s)) /\
  this_error_message (ResultsPage.browser s')
  = this_error_message (ResultsPage.browser s).
Proof.
  intros s'.
  assert (Hs' : s' = exec (ResultsPage.settle ResultsPage.renderResults
                             (net (ResultsPage.the_request (ResultsPage.browser s)))) s)
    by reflexivity.
  destruct (results_settle_cases
              (net (ResultsPage.the_request (ResultsPage.browser s))) s)
    as [(t & e & Hc) | [(msg & e & Hc) | Hc]];
    cbn zeta in Hc; rewrite <- Hs' in Hc; rewrite Hc; cbn;
    repeat split; auto.
  unfold list_items. cbn. lia.
Qed.

(** X7.  A run of the results-page listener reports exactly once: it shows
    one alert or logs one console error, never both and never neither.  A
    run of the documents-page listener reports at most once; earlier alerts
    and console entries are kept by both. *)
Theorem X7_one_report_per_run
    (net : network) (s : ResultsPage.state) (w : world) :
  (let b' := ResultsPage.browser
               (exec (ResultsPage.DOMContentLoaded_listener net) s) in
   exists shown logged,
     alerts b' = alerts (ResultsPage.browser s) ++ shown /\
     console_errors b' = console_errors (ResultsPage.browser s) ++ logged /\
     length shown + length logged = 1)
  /\
  (let w' := exec (DocumentsPage.listener_with DocumentsPage.renderResults net) w in
   exists shown logged,
     alerts w' = alerts w ++ shown /\
     console_errors w' = console_errors w ++ logged /\
     length shown + length logged <= 1).
Proof.
  split.
  - intros b'.
    assert (Hb' : b' = ResultsPage.browser
                         (exec (ResultsPage.settle ResultsPage.renderResults
                                  (net (ResultsPage.the_request
                                          (ResultsPage.browser s)))) s))
      by reflexivity.
    destruct (results_settle_cases
                (net (ResultsPage.the_request (ResultsPage.browser s))) s)
      as [(t & e & Hc) | [(msg & e & Hc) | Hc]];
      cbn zeta in Hc; rewrite Hc in Hb'; rewrite Hb'; cbn.
    + exists [], [("Error fetching search results:", t)].
      by rewrite app_nil_r.
    + exists [msg], []. by rewrite app_nil_r.
    + exists [], [("Error fetching search results:", TypeError)].
      by rewrite app_nil_r.
  - intros w'.
    assert (Hw' : w' = exec (DocumentsPage.settle DocumentsPage.renderResults
                               (net (DocumentsPage.the_request w))) w)
      by reflexivity.
    destruct (documents_settle_cases (net (DocumentsPage.the_request w)) w)
      as [(t & Hc) | [(msg & Hc) | [(items & Hc) | (items & t & Hc)]]];
      cbn zeta in Hc; rewrite Hc in Hw'; rewrite Hw'; cbn.
    + exists [], [("Error fetching search results:", t)].
      rewrite app_nil_r. repeat split; cbn; lia.
    + exists [msg], []. rewrite app_nil_r. repeat split; cbn; lia.
    + exists [], []. rewrite !app_nil_r. repeat split; cbn; lia.
    + exists [], [("Error fetching search results:", t)].
      rewrite app_nil_r. repeat split; cbn; lia.
Qed.

(** X8.  When [fetch] is rejected, or the body of an OK response is not
    JSON, both controllers hand that very exception to [console.error] and
    do nothing else: no alert, the container and the script variables are
    left as they were. *)
Theorem X8_transport_failure_is_logged
    (net : network) (s : ResultsPage.state) (w : world) (t1 t2 : exn) :
  transport_failure (net (ResultsPage.the_request (ResultsPage.browser s)))
  = Some t1 ->
  transport_failure (net (DocumentsPage.the_request w)) = Some t2 ->
  exec (ResultsPage.DOMContentLoaded_listener net) s
  = {| ResultsPage.browser :=
         with_console_errors
           (fun l => l ++ [("Error fetching search results:", t1)])
           (ResultsPage.browser s);
       ResultsPage.error_message := ResultsPage.error_message s;
       ResultsPage.results := ResultsPage.results s |}
  /\
  exec (DocumentsPage.listener_with DocumentsPage.renderResults net) w
  = with_console_errors
      (fun l => l ++ [("Error fetching search results:", t2)]) w
  /\
  console_errors
    (ResultsPage.browser (exec (ResultsPage.DOMContentLoaded_listener net) s))
  = console_errors (ResultsPage.browser s)
    ++ [("Error fetching search results:", t1)]
  /\
  console_errors
    (exec (DocumentsPage.listener_with DocumentsPage.renderResults net) w)
  = console_errors w ++ [("Error fetching search results:", t2)].
Proof.
  intros H1 H2.
  enough (Hstates :
    exec (ResultsPage.DOMContentLoaded_listener net) s
    = {| ResultsPage.browser :=
           with_console_errors
             (fun l => l ++ [("Error fetching search results:", t1)])
             (ResultsPage.browser s);
         ResultsPage.error_message := ResultsPage.error_message s;
         ResultsPage.results := ResultsPage.results s |}
    /\
    exec (DocumentsPage.listener_with DocumentsPage.renderResults net) w
    = with_console_errors
        (fun l => l ++ [("Error fetching search results:", t2)]) w).
  { destruct Hstates as [Hs Hw]. rewrite Hs, Hw. done. }
  unfold ResultsPage.DOMContentLoaded_listener, ResultsPage.listener_with,
    ResultsPage.settle, ResultsPage.then_response, ResultsPage.catch_error,
    ResultsPage.in_browser,
    DocumentsPage.listener_with, DocumentsPage.settle,
    DocumentsPage.then_response, DocumentsPage.catch_error.
  run. unfold transport_failure in H1, H2. split.
  - destruct (net (ResultsPage.the_request (ResultsPage.browser s)))
      as [[[] [data|t]]|t]; cbn in H1 |- *; try discriminate H1;
      by injection H1 as ->.
  - destruct (net (DocumentsPage.the_request w))
      as [[[] [data|t]]|t]; cbn in H2 |- *; try discriminate H2;
      by injection H2 as ->.
Qed.

Lemma X8_witness :
  let net : network := fun rq =>
    if String.eqb (url rq) "/results" then Rejected (DOMException "AbortError")
    else Fulfilled {| ok := true; json := Throw SyntaxError |} in
  exec (ResultsPage.DOMContentLoaded_listener net)
    (ResultsPage.script_load Sample.page)
  = {| ResultsPage.browser :=
         with_console_errors
           (fun l => l ++ [("Error fetching search results:",
                            DOMException "AbortError")])
           Sample.page;
       ResultsPage.error_message := Str "";
       ResultsPage.results := Arr [] |}
  /\
  exec (DocumentsPage.listener_with DocumentsPage.renderResults net) Sample.page
  = with_console_errors
      (fun l => l ++ [("Error fetching search results:", SyntaxError)])
      Sample.page
  /\
  console_errors
    (ResultsPage.browser
       (exec (ResultsPage.DOMContentLoaded_listener net)
          (ResultsPage.script_load Sample.page)))
  = console_errors Sample.page
    ++ [("Error fetching search results:", DOMException "AbortError")]
  /\
  console_errors
    (exec (DocumentsPage.listener_with DocumentsPage.renderResults net)
       Sample.page)
  = console_errors Sample.page
    ++ [("Error fetching search results:", SyntaxError)].
Proof.
  intros net.
  apply (X8_transport_failure_is_logged net
           (ResultsPage.script_load Sample.page) Sample.page
           (DOMException "AbortError") SyntaxError); reflexivity.
Defined.

(** X9.  Given the same outcome of [fetch], the two listeners show the same
    new alerts, in every case: failures, error bodies and result bodies. *)
Theorem X9_listeners_show_same_alerts
    (net : network) (s : ResultsPage.state) (w : world) :
  net (ResultsPage.the_request (ResultsPage.browser s))
  = net (DocumentsPage.the_request w) ->
  exists shown : list string,
    alerts (ResultsPage.browser
              (exec (ResultsPage.DOMContentLoaded_listener net) s))
    = alerts (ResultsPage.browser s) ++ shown /\
    alerts (exec (DocumentsPage.listener_with DocumentsPage.renderResults net) w)
    = alerts w ++ shown.
Proof.
  intros Hnet.
  destruct (controllers_show_same_alerts
              (net (DocumentsPage.the_request w)) s w) as (shown & H1 & H2).
  exists shown. split; [|exact H2].
  rewrite <- Hnet in H1. exact H1.
Qed.

Lemma X9_witness :
  let net := Sample.answers true
               (Sample.body_error (Str "index offline") []) in
  exists shown : list string,
    alerts (ResultsPage.browser
              (exec (ResultsPage.DOMContentLoaded_listener net)
                 (ResultsPage.script_load Sample.page)))
    = alerts Sample.page ++ shown /\
    alerts (exec (DocumentsPage.listener_with DocumentsPage.renderResults net)
              Sample.page)
    = alerts Sample.page ++ shown.
Proof.
  intros net.
  apply (X9_listeners_show_same_alerts net
           (ResultsPage.script_load Sample.page) Sample.page).
  reflexivity.
Defined.

(** X10.  The documents page on a good response.  When the response is OK,
    the [error_message] of the body is not truthy (missing, or empty) and
    [results] is an array of results that can be rendered (objects whose
    [url], [title] and [snippet] have a string form), the submit listener
    cancels the submission and replaces the children of [#results] by one
    list item per result, in the order received, each with the result's
    [url], [title] and [snippet]; no alert is shown, nothing is logged, and
    nothing else changes. *)
Theorem X10_documents_page_renders_results
    (net : network) (r : response) (data e : value) (items : list value)
    (ev : event) (w : world) :
  ok r = true -> json r = Normal data ->
  get data "error_message" = Normal e -> truthy e = false ->
  get data "results" = Normal (Arr items) ->
  forallb renderable items = true ->
  net (DocumentsPage.the_request w) = Fulfilled r ->
  let ev' := fst (DocumentsPage.submit_listener net ev w) in
  let w' := snd (DocumentsPage.submit_listener net ev w) in
  defaultPrevented ev' = true /\
  results_children w' = map document_item items /\
  length (list_items w') = length items /\
  alerts w' = alerts w /\
  console_errors w' = console_errors w /\
  w' = with_results_children (fun _ => map document_item items) w.
Proof.
  intros Hok Hjson Hget He Hres Hall Hnet.
  unfold DocumentsPage.submit_listener, DocumentsPage.listener_with,
    DocumentsPage.settle, DocumentsPage.then_response. run.
  rewrite Hnet, Hok, Hjson.
  rewrite (documents_then_data_render _ data e (Arr items) w Hget He Hres).
  rewrite (documents_render_all items w Hall).
  cbn. unfold list_items. cbn.
  by rewrite document_items_li, length_map.
Qed.

Lemma X10_witness :
  let net := Sample.answers true
               (Sample.body_error (Str "") [Sample.hit "1"; Sample.hit "2"]) in
  let ev' := fst (DocumentsPage.submit_listener net Sample.submit_event
                    Sample.page) in
  let w' := snd (DocumentsPage.submit_listener net Sample.submit_event
                   Sample.page) in
  defaultPrevented ev' = true /\
  results_children w' = map document_item [Sample.hit "1"; Sample.hit "2"] /\
  length (list_items w') = length [Sample.hit "1"; Sample.hit "2"] /\
  alerts w' = alerts Sample.page /\
  console_errors w' = console_errors Sample.page /\
  w' = with_results_children
         (fun _ => map document_item [Sample.hit "1"; Sample.hit "2"])
         Sample.page.
Proof.
  intros net.
  apply (X10_documents_page_renders_results net
           {| ok := true;
              json := Normal (Sample.body_error (Str "")
                                [Sample.hit "1"; Sample.hit "2"]) |}
           (Sample.body_error (Str "") [Sample.hit "1"; Sample.hit "2"])
           (Str "") [Sample.hit "1"; Sample.hit "2"]
           Sample.submit_event Sample.page); reflexivity.
Defined.

(** X11.  The documents page is not atomic either.  When the array under
    [results] holds, after [k] results that can be rendered, an entry that
    cannot ([null], [undefined], or a result whose [url], [title] or
    [snippet] has no string form), the listener leaves the items of those
    [k] results in the container, drops the entry and everything after it,
    and logs a TypeError: no alert tells the user that the list is cut
    short. *)
Theorem X11_documents_page_stops_at_null
    (net : network) (r : response) (data e x : value)
    (pre post : list value) (w : world) :
  ok r = true -> json r = Normal data ->
  get data "error_message" = Normal e -> truthy e = false ->
  get data "results" = Normal (Arr (pre ++ x :: post)) ->
  forallb renderable pre = true -> renderable x = false ->
  net (DocumentsPage.the_request w) = Fulfilled r ->
  let w' := exec (DocumentsPage.listener_with DocumentsPage.renderResults net) w in
  results_children w' = map document_item pre /\
  length (list_items w') = length pre /\
  console_errors w'
  = console_errors w ++ [("Error fetching search results:", TypeError)] /\
  alerts w' = alerts w.
Proof.
  intros Hok Hjson Hget He Hres Hpre Hx Hnet.
  unfold DocumentsPage.listener_with, DocumentsPage.settle,
    DocumentsPage.then_response, DocumentsPage.catch_error. run.
  rewrite Hnet, Hok, Hjson.
  rewrite (documents_then_data_render _ data e _ w Hget He Hres).
  rewrite (documents_render_stops pre post x w Hpre Hx).
  cbn. unfold list_items. cbn.
  by rewrite document_items_li, length_map.
Qed.

Lemma X11_witness :
  let unshown := Obj {[ "url" := Sample.unprintable ]} in
  let after_null :=
    exec (DocumentsPage.listener_with DocumentsPage.renderResults
            (Sample.answers true
               (Sample.body_results
                  ([Sample.hit "1"] ++ Null :: [Sample.hit "3"]))))
         Sample.page in
  let after_unshown :=
    exec (DocumentsPage.listener_with DocumentsPage.renderResults
            (Sample.answers true
               (Sample.body_results
                  ([Sample.hit "1"] ++ unshown :: [Sample.hit "3"]))))
         Sample.page in
  (results_children after_null = map document_item [Sample.hit "1"] /\
   length (list_items after_null) = 1 /\
   console_errors after_null
   = console_errors Sample.page
     ++ [("Error fetching search results:", TypeError)] /\
   alerts after_null = alerts Sample.page)
  /\
  (results_children after_unshown = map document_item [Sample.hit "1"] /\
   length (list_items after_unshown) = 1 /\
   console_errors after_unshown
   = console_errors Sample.page
     ++ [("Error fetching search results:", TypeError)] /\
   alerts after_unshown = alerts Sample.page).
Proof.
  intros unshown. split.
  - apply (X11_documents_page_stops_at_null
             (Sample.answers true
                (Sample.body_results
                   ([Sample.hit "1"] ++ Null :: [Sample.hit "3"])))
             {| ok := true;
                json := Normal (Sample.body_results
                                  ([Sample.hit "1"] ++ Null :: [Sample.hit "3"])) |}
             (Sample.body_results ([Sample.hit "1"] ++ Null :: [Sample.hit "3"]))
             Undefined Null [Sample.hit "1"] [Sample.hit "3"] Sample.page);
      reflexivity.
  - apply (X11_documents_page_stops_at_null
             (Sample.answers true
                (Sample.body_results
                   ([Sample.hit "1"] ++ unshown :: [Sample.hit "3"])))
             {| ok := true;
                json := Normal (Sample.body_results
                                  ([Sample.hit "1"] ++ unshown :: [Sample.hit "3"])) |}
             (Sample.body_results ([Sample.hit "1"] ++ unshown :: [Sample.hit "3"]))
             Undefined unshown [Sample.hit "1"] [Sample.hit "3"] Sample.page);
      reflexivity.
Defined.

(** X12.  The documents page on a body without usable results.  When the
    response is OK and the body has no truthy [error_message] but what sits
    under [results] cannot be iterated (the property is missing, [null], a
    number, an object), the listener empties the container and logs a
    TypeError; it shows no alert. *)
Theorem X12_documents_page_without_results
    (net : network) (r : response) (data e res : value) (w : world) :
  ok r = true -> json r = Normal data ->
  get data "error_message" = Normal e -> truthy e = false ->
  get data "results" = Normal res ->
  match res with Arr _ | Str _ => False | _ => True end ->
  net (DocumentsPage.the_request w) = Fulfilled r ->
  exec (DocumentsPage.listener_with DocumentsPage.renderResults net) w
  = with_console_errors
      (fun l => l ++ [("Error fetching search results:", TypeError)])
      (with_results_children (fun _ => []) w)
  /\
  (let w' := exec (DocumentsPage.listener_with DocumentsPage.renderResults net) w in
   results_children w' = [] /\
   console_errors w'
   = console_errors w ++ [("Error fetching search results:", TypeError)] /\
   alerts w' = alerts w).
Proof.
  intros Hok Hjson Hget He Hres Hiter Hnet.
  unfold DocumentsPage.listener_with, DocumentsPage.settle,
    DocumentsPage.then_response, DocumentsPage.catch_error. run.
  rewrite Hnet, Hok, Hjson.
  rewrite (documents_then_data_render _ data e res w Hget He Hres).
  rewrite (documents_render_not_iterable res TypeError w); [done|].
  by destruct res.
Qed.

Lemma X12_witness :
  exec (DocumentsPage.listener_with DocumentsPage.renderResults
          (Sample.answers true (Obj ∅)))
       Sample.page
  = with_console_errors
      (fun l => l ++ [("Error fetching search results:", TypeError)])
      (with_results_children (fun _ => []) Sample.page)
  /\
  (let w' := exec (DocumentsPage.listener_with DocumentsPage.renderResults
                     (Sample.answers true (Obj ∅)))
                  Sample.page in
   results_children w' = [] /\
   console_errors w'
   = console_errors Sample.page
     ++ [("Error fetching search results:", TypeError)] /\
   alerts w' = alerts Sample.page).
Proof.
  apply (X12_documents_page_without_results
           (Sample.answers true (Obj ∅))
           {| ok := true; json := Normal (Obj ∅) |}
           (Obj ∅) Undefined Undefined Sample.page);
    first [exact I | reflexivity].
Defined.

(* ===================================================================== *)
(** ** More on the theme and on the index page *)
(* ===================================================================== *)

Lemma classList_add_idempotent (c : string) (l : list string) :
  classList_add c (classList_add c l) = classList_add c l.
Proof.
  unfold classList_add at 2. case_bool_decide as Hin.
  - unfold classList_add. by rewrite bool_decide_eq_true_2.
  - unfold classList_add.
    rewrite (bool_decide_eq_false_2 (c ∈ l)) by done.
    rewrite bool_decide_eq_true_2; [done|].
    apply elem_of_app. right. by apply list_elem_of_singleton.
Qed.

(** X13.  Loading the script of the documents page only ever adds to the
    class list of the document root: the classes that were there stay, in
    order, at the front (so a [night-theme] class already on the root is
    not removed when the stored flag is off); no class is duplicated;
    nothing but the class list changes; and loading the script a second
    time changes nothing more. *)
Theorem X13_theme_only_adds (w : world) :
  let w' := DocumentsPage.script_load w in
  root_classes w `prefix_of` root_classes w' /\
  (NoDup (root_classes w) -> NoDup (root_classes w')) /\
  w' = with_root_classes (fun _ => root_classes w') w /\
  DocumentsPage.script_load w' = w'.
Proof.
  unfold DocumentsPage.script_load, DocumentsPage.nightThemeEnabled, getItem.
  case_bool_decide as Hstored; cbn zeta.
  - cbn [local_storage root_classList_add with_root_classes].
    rewrite bool_decide_eq_true_2 by exact Hstored.
    repeat split.
    + cbn. unfold classList_add. case_bool_decide; [done|].
      by apply prefix_app_r.
    + cbn. intros Hnd. unfold classList_add. case_bool_decide as Hin; [done|].
      apply NoDup_app. repeat split; [done| |apply NoDup_singleton].
      intros c Hc Hc'. apply list_elem_of_singleton in Hc'. by subst c.
    + unfold root_classList_add, with_root_classes. cbn.
      by rewrite classList_add_idempotent.
  - rewrite bool_decide_eq_false_2 by exact Hstored.
    repeat split; [done|done|by destruct w].
Qed.

(** X14.  The [change] listener of the index page.  With an option selected
    (an index within the option list) it logs that option's value, once,
    and leaves the selection and the focus alone.  With no option selected
    ([selectedIndex] is [-1]) or an index past the end, it throws a
    TypeError and logs nothing. *)
Theorem X14_change_listener_logs_selected (g : IndexPage.widgets) :
  let sel := IndexPage.algorithmSelect g in
  let i := IndexPage.selectedIndex sel in
  ((0 <= i < Z.of_nat (length (IndexPage.options sel)))%Z ->
   exists v,
     IndexPage.options sel !! Z.to_nat i = Some v /\
     IndexPage.change_listener g
     = ({| IndexPage.algorithmSelect := sel;
           IndexPage.console_log :=
             IndexPage.console_log g ++ [("Selected algorithm:", v)];
           IndexPage.focused := IndexPage.focused g |},
        Normal tt))
  /\
  ((i < 0 \/ Z.of_nat (length (IndexPage.options sel)) <= i)%Z ->
   IndexPage.change_listener g = (g, Throw TypeError)).
Proof.
  intros sel i. subst sel i.
  unfold IndexPage.change_listener, IndexPage.log, IndexPage.option_at.
  run. split.
  - intros [Hlo Hhi].
    destruct (IndexPage.options (IndexPage.algorithmSelect g)
                !! Z.to_nat (IndexPage.selectedIndex (IndexPage.algorithmSelect g)))
      as [v|] eqn:Hv.
    + exists v. split; [done|].
      by rewrite (proj2 (Z.ltb_ge _ _) Hlo).
    + apply lookup_ge_None in Hv. lia.
  - intros [Hneg | Hbig].
    + by rewrite (proj2 (Z.ltb_lt _ _) Hneg).
    + destruct (Z.ltb_spec (IndexPage.selectedIndex (IndexPage.algorithmSelect g)) 0);
        [done|].
      rewrite (proj2 (lookup_ge_None _ _)); [done|]. lia.
Qed.

Lemma X14_witness :
  let g := {| IndexPage.algorithmSelect :=
                {| IndexPage.options := ["tfidf"; "bm25"];
                   IndexPage.selectedIndex := 1 |};
              IndexPage.console_log := [];
              IndexPage.focused := Some "query" |} in
  let none := {| IndexPage.algorithmSelect :=
                   {| IndexPage.options := [];
                      IndexPage.selectedIndex := (-1) |};
                 IndexPage.console_log := [];
                 IndexPage.focused := None |} in
  (exists v,
     ["tfidf"; "bm25"] !! 1 = Some v /\
     IndexPage.change_listener g
     = ({| IndexPage.algorithmSelect := IndexPage.algorithmSelect g;
           IndexPage.console_log := [] ++ [("Selected algorithm:", v)];
           IndexPage.focused := Some "query" |},
        Normal tt))
  /\
  IndexPage.change_listener none = (none, Throw TypeError).
Proof.
  intros g none. split.
  - apply (X14_change_listener_logs_selected g). cbn. lia.
  - apply (X14_change_listener_logs_selected none). left. cbn. lia.
Defined.

Lemma X13_witness :
  let w := with_root_classes (fun _ => ["night-theme"])
             (fresh "" "" Sample.day []) in
  root_classes (DocumentsPage.script_load w) = ["night-theme"] /\
  NoDup (root_classes (DocumentsPage.script_load w)) /\
  DocumentsPage.script_load (DocumentsPage.script_load w)
  = DocumentsPage.script_load w.
Proof.
  intros w.
  destruct (X13_theme_only_adds w) as (_ & Hnodup & _ & Hagain).
  split; [reflexivity|]. split; [|exact Hagain].
  apply Hnodup. apply NoDup_singleton.
Defined.

(** The loop of the results page appends empty list items, at most one per
    result. *)
Lemma results_loop_items (items : list value) (w : world) :
  exists n, n <= length items /\
    results_children (fst (ResultsPage.render_loop items w))
    = results_children w ++ repeat ResultsPage.resultItem n.
Proof.
  revert w. induction items as [|x items IH]; intros w.
  - exists 0. cbn. by rewrite app_nil_r.
  - cbn [ResultsPage.render_loop]. run.
    destruct (get x "error_message") as [e|t].
    + destruct (truthy e).
      * exists 0. cbn. split; [lia | by rewrite app_nil_r].
      * destruct (IH (with_results_children
                        (fun c => c ++ [ResultsPage.resultItem]) w))
          as (n & Hn & Hl).
        exists (S n). cbn [length]. split; [lia|].
        cbn [repeat]. cbn [results_children with_results_children] in Hl.
        rewrite <- app_assoc in Hl. cbn [app] in Hl. rewrite <- Hl.
        by destruct (ResultsPage.render_loop items _) as [w2 [[]|e2]].
    + exists 0. cbn. split; [lia | by rewrite app_nil_r].
Qed.

(** X15.  On the results page a result is never shown with its [url],
    [title] or [snippet].  Whatever the argument and however the call ends,
    the renderer leaves in the container only empty list items of class
    [result], at most one per element of the argument. *)
Theorem X15_results_items_are_empty (v : value) (w : world) :
  exists n,
    results_children (exec (ResultsPage.renderResults v) w)
    = repeat (Element "li" ["result"] [] []) n /\
    match iterate v with
    | Normal items => n <= length items
    | Throw _ => n = 0
    end.
Proof.
  unfold ResultsPage.renderResults. run.
  destruct (iterate v) as [items|t]; [|by exists 0].
  destruct (results_loop_items items (with_results_children (fun _ => []) w))
    as (n & Hn & Hl).
  exists n. split; [|exact Hn].
  cbn in Hl.
  destruct (ResultsPage.render_loop items _) as [w2 [[]|t]]; cbn in Hl |- *;
    [|exact Hl].
  destruct (truthy (this_error_message w2)).
  - unfold concat. by destruct (to_string (this_error_message w2)).
  - destruct (get v "length") as [len|t]; [|exact Hl].
    by destruct (strict_eq_num len "0").
Qed.
